(** * Orchestrator script nodes: type-cast and select

    A shallow embedding of [src/script/node.h],
    [src/script/nodes/data/type_cast.cpp] and
    [src/script/nodes/flow_control/select.cpp], with the properties of the
    node/pin model, the reconstruction protocol and the step contract that
    the specification states about them. *)

From Stdlib Require Import ZArith Lia.
From stdpp Require Import base option list strings gmap.

Local Open Scope string_scope.
Local Open Scope Z_scope.
Local Open Scope list_scope.

(** ** Engine types *)

(** [StringName] and [String] are both carried by Rocq strings: the model
    does not distinguish interned names from plain strings. *)
Abbreviation StringName := string (only parsing).

(** C++ [int] is 32 bits wide, two's complement. *)
Definition INT_MIN : Z := - 2 ^ 31.
Definition INT_MAX : Z := 2 ^ 31 - 1.
Definition wrap_int (z : Z) : Z := (z + 2 ^ 31) mod 2 ^ 32 - 2 ^ 31.

Module StringUtils.
(** Modelled from the spec: [StringUtils::default_if_empty]
    ([common/string_utils.h]) is not among the sources.  The cast node
    "defaults to the most general type" through it: the fallback is
    returned exactly when the string is empty. *)
Definition default_if_empty (p_value p_default : string) : string :=
  if decide (p_value = "") then p_default else p_value.
End StringUtils.

(** [Variant::Type], an enumeration whose values are converted to and from
    [int] by the nodes; it is kept as the underlying integer. *)
Module VariantType.
Definition NIL : Z := 0.
Definition BOOL : Z := 1.
Definition INT : Z := 2.
Definition FLOAT : Z := 3.
Definition STRING : Z := 4.
Definition RID : Z := 23.
Definition OBJECT : Z := 24.
End VariantType.

(** A live engine object: its identity and its runtime class. *)
Record Object := mkObject {
  get_instance_id : Z;
  get_class : StringName
}.

(** The kinds of [Variant] the two nodes look at.  An [OBJECT] variant holds
    an object pointer that may be null. *)
Inductive Variant :=
| V_NIL
| V_BOOL (b : bool)
| V_INT (i : Z)
| V_STRING (s : string)
| V_OBJECT (o : option Object).

Definition get_type (v : Variant) : Z :=
  match v with
  | V_NIL => VariantType.NIL
  | V_BOOL _ => VariantType.BOOL
  | V_INT _ => VariantType.INT
  | V_STRING _ => VariantType.STRING
  | V_OBJECT _ => VariantType.OBJECT
  end.

(** [Variant::booleanize]: a variant is true unless it is the zero value of
    its kind. *)
Definition booleanize (v : Variant) : bool :=
  match v with
  | V_NIL => false
  | V_BOOL b => b
  | V_INT i => negb (i =? 0)
  | V_STRING s => negb (bool_decide (s = ""))
  | V_OBJECT o => match o with Some _ => true | None => false end
  end.

(** [Object::cast_to<Object>(variant)]: the object pointer held by the
    variant, null when there is none. *)
Definition cast_to_Object (v : Variant) : option Object :=
  match v with
  | V_OBJECT o => o
  | _ => None
  end.

(** Conversion of a variant to a C++ [int] ([_type = p_value]).  Parsing a
    string as a number is outside the model: [None]. *)
Definition variant_to_int (v : Variant) : option Z :=
  match v with
  | V_NIL => Some 0
  | V_BOOL b => Some (if b then 1 else 0)
  | V_INT i => Some (wrap_int i)
  | V_STRING _ => None
  | V_OBJECT _ => Some 0
  end.

(** Conversion of a variant to a [String] ([_target_type = p_value]).  The
    textual rendering of the other kinds is outside the model: [None]. *)
Definition variant_to_String (v : Variant) : option string :=
  match v with
  | V_STRING s => Some s
  | _ => None
  end.

(** ** The engine's class database *)

Module ClassDB.
(** A registered class with the chain of classes it inherits from
    ([ClassInfo::inherits_ptr]). *)
Inductive ClassInfo :=
| RootClass (name : StringName)
| DerivedClass (name : StringName) (inherits_ptr : ClassInfo).

Definition name (c : ClassInfo) : StringName :=
  match c with
  | RootClass n => n
  | DerivedClass n _ => n
  end.

(** The table of registered classes, searched by class name. *)
Definition classes := list ClassInfo.

Definition getptr (db : classes) (p_class : StringName) : option ClassInfo :=
  snd <$> list_find (λ c, name c = p_class) db.

Fixpoint walk (c : ClassInfo) (p_inherits : StringName) : bool :=
  if decide (name c = p_inherits) then true
  else match c with
       | RootClass _ => false
       | DerivedClass _ parent => walk parent p_inherits
       end.

(** Modelled from the spec: [ClassDB::is_parent_class] belongs to the
    engine and is not among the sources.  It is the injected
    class-hierarchy query "is class A a subclass of/equal to class B":
    starting at [p_class] it follows the inheritance chain upwards and
    answers true when it meets [p_inherits]. *)
Definition is_parent_class (db : classes) (p_class p_inherits : StringName) : bool :=
  match getptr db p_class with
  | Some c => walk c p_inherits
  | None => false
  end.

(** The names of the proper ancestors of a class, nearest first. *)
Fixpoint ancestors (c : ClassInfo) : list StringName :=
  match c with
  | RootClass _ => []
  | DerivedClass _ parent => name parent :: ancestors parent
  end.

(** [c] is registered and [t] is one of its proper ancestors. *)
Definition strict_descendant (db : classes) (c t : StringName) : Prop :=
  match getptr db c with
  | Some ci => t ∈ ancestors ci
  | None => False
  end.

(** [c] is registered and is [t] or has [t] among its ancestors. *)
Definition descendant_or_self (db : classes) (c t : StringName) : Prop :=
  match getptr db c with
  | Some ci => t = c ∨ t ∈ ancestors ci
  | None => False
  end.

(** Neither class is the other, nor an ancestor of the other. *)
Definition unrelated (db : classes) (c t : StringName) : Prop :=
  c ≠ t ∧ ¬ strict_descendant db c t ∧ ¬ strict_descendant db t c.

(** The reading of the cast rule with the direction reversed: the class
    [c] is [t], or [t] is registered and has [c] among its ancestors. *)
Definition ancestor_or_self (db : classes) (c t : StringName) : Prop :=
  c = t ∨ strict_descendant db t c.
End ClassDB.

(** ** Execution context *)

(** Modelled from the spec: the execution context
    ([context/execution_context.h]; [type_cast.cpp] names the type
    [OScriptNodeExecutionContext]) is not among the sources.  It is "an
    ordered array of current input values ... and an output-slot array",
    read and written by position.  A position outside the arrays has no
    defined result in C++; the accessors answer [None] there. *)
Record OScriptExecutionContext := mkContext {
  _inputs : list Variant;
  _outputs : list Variant
}.

Definition get_input (p_context : OScriptExecutionContext) (p_index : nat)
  : option Variant :=
  _inputs p_context !! p_index.

Definition set_output (p_context : OScriptExecutionContext) (p_index : nat)
    (p_value : Variant) : option OScriptExecutionContext :=
  match _outputs p_context !! p_index with
  | Some _ =>
      Some {| _inputs := _inputs p_context;
              _outputs := <[p_index := p_value]> (_outputs p_context) |}
  | None => None
  end.

(** ** Pins *)

Inductive EPinDirection := PD_Input | PD_Output | PD_MAX.

#[global] Instance EPinDirection_eq_dec : EqDecision EPinDirection.
Proof. solve_decision. Defined.

(** The pin flags the two nodes use; a flag word is kept as the list of the
    flags that are set. *)
Inductive PinFlag := DATA | EXECUTION | OBJECT | SHOW_LABEL | NO_CAPITALIZE.

#[global] Instance PinFlag_eq_dec : EqDecision PinFlag.
Proof. solve_decision. Defined.

(** A connection endpoint: owning node, direction and pin index. *)
Record PinRef := mkPinRef {
  ref_node : Z;
  ref_direction : EPinDirection;
  ref_index : nat
}.

(** Modelled from the spec: [OScriptNodePin] ([node_pin.h]) is not among the
    sources.  A pin has a direction, an index within its direction, a name, a
    type, flags, a default value, and a set of connections to pins of other
    nodes; it is owned by at most one node. *)
Record OScriptNodePin := mkPin {
  pin_owning_node : option Z;
  pin_direction : EPinDirection;
  pin_index : nat;
  pin_name : string;
  pin_type : Z;
  pin_flags : list PinFlag;
  pin_default_value : Variant;
  pin_label : string;
  pin_connections : list PinRef
}.

Definition is_output (p : OScriptNodePin) : bool :=
  bool_decide (pin_direction p = PD_Output).
Definition is_input (p : OScriptNodePin) : bool :=
  bool_decide (pin_direction p = PD_Input).
Definition is_execution (p : OScriptNodePin) : bool :=
  bool_decide (EXECUTION ∈ pin_flags p).
Definition has_any_connections (p : OScriptNodePin) : bool :=
  match pin_connections p with [] => false | _ => true end.

Definition set_type (p_type : Z) (p : OScriptNodePin) : OScriptNodePin :=
  {| pin_owning_node := pin_owning_node p; pin_direction := pin_direction p;
     pin_index := pin_index p; pin_name := pin_name p; pin_type := p_type;
     pin_flags := pin_flags p; pin_default_value := pin_default_value p;
     pin_label := pin_label p; pin_connections := pin_connections p |}.

Definition set_flags (p_flags : list PinFlag) (p : OScriptNodePin) : OScriptNodePin :=
  {| pin_owning_node := pin_owning_node p; pin_direction := pin_direction p;
     pin_index := pin_index p; pin_name := pin_name p; pin_type := pin_type p;
     pin_flags := p_flags; pin_default_value := pin_default_value p;
     pin_label := pin_label p; pin_connections := pin_connections p |}.

Definition set_label (p_label : string) (p : OScriptNodePin) : OScriptNodePin :=
  {| pin_owning_node := pin_owning_node p; pin_direction := pin_direction p;
     pin_index := pin_index p; pin_name := pin_name p; pin_type := pin_type p;
     pin_flags := pin_flags p; pin_default_value := pin_default_value p;
     pin_label := p_label; pin_connections := pin_connections p |}.

Definition set_connections (p_connections : list PinRef) (p : OScriptNodePin)
  : OScriptNodePin :=
  {| pin_owning_node := pin_owning_node p; pin_direction := pin_direction p;
     pin_index := pin_index p; pin_name := pin_name p; pin_type := pin_type p;
     pin_flags := pin_flags p; pin_default_value := pin_default_value p;
     pin_label := pin_label p; pin_connections := p_connections |}.

(** The error taxonomy of the specification. *)
Inductive Error := InvalidConnection | PinNotFound | UnresolvedType.

Inductive LinkResult := LinkOk | LinkFailed (e : Error).

(** Modelled from the spec: [OScriptNodePin::link] ([node_pin.cpp]) is not
    among the sources.  "Connecting two pins ([link]) fails with
    [InvalidConnection] if directions match, if either pin belongs to no
    node, or if a Data Input pin already has a connection"; otherwise each
    pin records the other.  Both pins are passed by reference: the result
    carries their state after the call. *)
Definition link (a b : OScriptNodePin)
  : LinkResult * (OScriptNodePin * OScriptNodePin) :=
  if decide (pin_direction a = pin_direction b) then
    (LinkFailed InvalidConnection, (a, b))
  else
    match pin_owning_node a, pin_owning_node b with
    | Some na, Some nb =>
        let input := if is_input a then a else b in
        if negb (is_execution input) && has_any_connections input then
          (LinkFailed InvalidConnection, (a, b))
        else
          let ra := mkPinRef na (pin_direction a) (pin_index a) in
          let rb := mkPinRef nb (pin_direction b) (pin_index b) in
          (LinkOk, (set_connections (pin_connections a ++ [rb]) a,
                    set_connections (pin_connections b ++ [ra]) b))
    | _, _ => (LinkFailed InvalidConnection, (a, b))
    end.

(** ** Nodes *)

(** The state of the [OScriptNode] base class.  Layout hints (size and
    position) and the back pointer to the owning script play no part in the
    behaviour described here.  [_emitted] records the signals raised by the
    node, oldest first. *)
Record OScriptNode := mkNode {
  _initialized : bool;
  _id : Z;
  _pins : list OScriptNodePin;
  _reconstructing : bool;
  _emitted : list string
}.

Definition with_pins (p_pins : list OScriptNodePin) (self : OScriptNode) : OScriptNode :=
  {| _initialized := _initialized self; _id := _id self; _pins := p_pins;
     _reconstructing := _reconstructing self; _emitted := _emitted self |}.

Definition with_reconstructing (b : bool) (self : OScriptNode) : OScriptNode :=
  {| _initialized := _initialized self; _id := _id self; _pins := _pins self;
     _reconstructing := b; _emitted := _emitted self |}.

(** [node.h] declares [_notify_pins_changed] ("Notify that node pins have
    been changed"); its body is not among the sources.  The notification is
    kept as an entry of [_emitted]; no other field is written. *)
Definition _notify_pins_changed (self : OScriptNode) : OScriptNode :=
  {| _initialized := _initialized self; _id := _id self; _pins := _pins self;
     _reconstructing := _reconstructing self;
     _emitted := _emitted self ++ ["pins_changed"] |}.

Definition count_direction (d : EPinDirection) (pins : list OScriptNodePin) : nat :=
  length (filter (λ p, pin_direction p = d) pins).

(** Modelled from the spec: [OScriptNode::create_pin] ([node.cpp]) is not
    among the sources.  With no slot index given, "the pin is appended after
    existing pins of that direction"; its index is its position within its
    direction and it starts without connections.  The result is the
    reference to the new pin, which is its place in [_pins].  The select
    node passes the pin kind ([PT_Data]) as a second argument: [p_flags] is
    the flag word the pin starts with. *)
Definition create_pin (p_direction : EPinDirection) (p_flags : list PinFlag)
    (p_name : string) (p_type : Z) (p_default_value : Variant)
    (self : OScriptNode) : nat * OScriptNode :=
  let pin :=
    {| pin_owning_node := Some (_id self); pin_direction := p_direction;
       pin_index := count_direction p_direction (_pins self);
       pin_name := p_name; pin_type := p_type; pin_flags := p_flags;
       pin_default_value := p_default_value; pin_label := "";
       pin_connections := [] |} in
  (length (_pins self), with_pins (_pins self ++ [pin]) self).

(** Modelled from the spec: [OScriptNode::find_pin] ([node.cpp]) is not
    among the sources.  "[find_pin(name, direction)] returns the first
    matching pin scanning inputs-then-outputs when direction is
    unspecified"; an invalid reference is [None]. *)
Definition find_pin_in (p_pin_name : string) (d : EPinDirection)
    (pins : list OScriptNodePin) : option nat :=
  fst <$> list_find (λ p, pin_direction p = d ∧ pin_name p = p_pin_name) pins.

Definition find_pin (p_pin_name : string) (p_direction : EPinDirection)
    (self : OScriptNode) : option nat :=
  match p_direction with
  | PD_MAX =>
      match find_pin_in p_pin_name PD_Input (_pins self) with
      | Some r => Some r
      | None => find_pin_in p_pin_name PD_Output (_pins self)
      end
  | d => find_pin_in p_pin_name d (_pins self)
  end.

(** A method call through a pin reference: [ref->f()].  Dereferencing an
    invalid reference has no defined result: [None]. *)
Definition on_pin (r : option nat) (f : OScriptNodePin → OScriptNodePin)
    (self : OScriptNode) : option OScriptNode :=
  r ← r;
  p ← _pins self !! r;
  Some (with_pins (<[r := f p]> (_pins self)) self).

(** A method call through a reference that [create_pin] has just returned. *)
Definition deref_pin (r : nat) (f : OScriptNodePin → OScriptNodePin)
    (self : OScriptNode) : OScriptNode :=
  with_pins (alter f r (_pins self)) self.

(** [virtual void post_reconstruct_node() { }] *)
Definition post_reconstruct_node (self : OScriptNode) : OScriptNode := self.

(** [virtual StringName resolve_type_class(p_pin) const { return ""; }] *)
Definition OScriptNode_resolve_type_class (p_pin : OScriptNodePin) : StringName := "".

(** [virtual void allocate_default_pins() { }] *)
Definition OScriptNode_allocate_default_pins (self : OScriptNode) : OScriptNode := self.

(** ** Reconstruction engine *)

Section Reconstruction.
(** The part of the rewiring rule that the specification leaves to the
    node kind: whether the new pin's type accepts what is connected to the
    old pin. *)
Variable accepts : OScriptNodePin → OScriptNodePin → bool.
(** The node kind's override of [allocate_default_pins]. *)
Variable allocate_default_pins : OScriptNode → OScriptNode.

Definition same_direction_and_name (old new : OScriptNodePin) : Prop :=
  pin_direction new = pin_direction old ∧ pin_name new = pin_name old.

Definition same_direction_and_index (old new : OScriptNodePin) : Prop :=
  pin_direction new = pin_direction old ∧ pin_index new = pin_index old.

(** "identical type, or the new type accepts the old pin's connected value
    kind, or either is untyped/any" *)
Definition compatible (new old : OScriptNodePin) : bool :=
  bool_decide (pin_type new = pin_type old)
  || accepts new old
  || bool_decide (pin_type new = VariantType.NIL)
  || bool_decide (pin_type old = VariantType.NIL).

(** "migrate every connection from the old pin to the new pin" *)
Definition migrate (old new : OScriptNodePin) : OScriptNodePin :=
  set_connections (pin_connections new ++ pin_connections old) new.

Definition rewire_pin (p_old_pins : list OScriptNodePin)
    (new_pins : list OScriptNodePin) (old : OScriptNodePin)
  : list OScriptNodePin :=
  match list_find (same_direction_and_name old) new_pins with
  | Some (j, new) =>
      if compatible new old then <[j := migrate old new]> new_pins
      else new_pins
  | None =>
      if decide (count_direction (pin_direction old) p_old_pins
                 = count_direction (pin_direction old) new_pins)
      then match list_find (same_direction_and_index old) new_pins with
           | Some (j, new) => <[j := migrate old new]> new_pins
           | None => new_pins
           end
      else new_pins
  end.

(** Modelled from the spec: [rewire_old_pins_to_new_pins] ([node.cpp]) is
    not among the sources.  "For each old pin, find a new pin with the
    same direction and name; if found and the new pin's type is
    compatible ..., migrate every connection from the old pin to the new
    pin.  If no name match exists, fall back to matching by (direction,
    index) only when the old and new pin counts for that direction are
    equal.  Any old pin that cannot be matched has its connections
    dropped." *)
Definition rewire_old_pins_to_new_pins (p_old_pins p_new_pins : list OScriptNodePin)
  : list OScriptNodePin :=
  fold_left (rewire_pin p_old_pins) p_old_pins p_new_pins.

(** Modelled from the spec: [reallocate_pins_during_reconstruction]
    ([node.cpp]) is not among the sources.  "Default behavior clears the
    node's pin sequence and calls [allocate_default_pins()]." *)
Definition reallocate_pins_during_reconstruction
    (p_old_pins : list OScriptNodePin) (self : OScriptNode) : OScriptNode :=
  allocate_default_pins (with_pins [] self).

(** Modelled from the spec: [OScriptNode::reconstruct_node] ([node.cpp])
    is not among the sources.  The steps are those of the reconstruction
    algorithm: snapshot the pins, raise [_reconstructing], reallocate,
    rewire, drop the snapshot, lower [_reconstructing], call
    [post_reconstruct_node()]. *)
Definition reconstruct_node (self : OScriptNode) : OScriptNode :=
  let old_pins := _pins self in
  let self := with_reconstructing true self in
  let self := reallocate_pins_during_reconstruction old_pins self in
  let self := with_pins (rewire_old_pins_to_new_pins old_pins (_pins self)) self in
  let self := with_reconstructing false self in
  post_reconstruct_node self.
End Reconstruction.

(** ** The type-cast node *)

Record OScriptNodeTypeCast := mkTypeCast {
  cast_super : OScriptNode;
  _target_type : string
}.

(** The runtime instance.  [_node] points at the node it was compiled from
    (the node's id stands for the pointer) and [_instance] at the owning
    script instance. *)
Record OScriptNodeTypeCastInstance := mkTypeCastInstance {
  cast_node : Z;
  cast_instance : Z;
  _target_class : StringName
}.

(** [step] runs with the live nodes of the script within reach of its
    [_node] pointer; [p_nodes] is that store, keyed by node id. *)
Definition OScriptNodeTypeCastInstance_step (db : ClassDB.classes)
    (p_nodes : gmap Z OScriptNodeTypeCast)
    (self : OScriptNodeTypeCastInstance) (p_context : OScriptExecutionContext)
  : option (Z * OScriptExecutionContext) :=
  input ← get_input p_context 0;
  if decide (get_type input = VariantType.OBJECT) then
    match cast_to_Object input with
    | Some object =>
        if ClassDB.is_parent_class db (get_class object) (_target_class self) then
          p_context ← set_output p_context 0 input;
          Some (0, p_context)
        else Some (1, p_context)
    | None => Some (1, p_context)
    end
  else Some (1, p_context).

Definition OScriptNodeTypeCast__get (p_name : StringName) (self : OScriptNodeTypeCast)
  : option Variant :=
  if decide (p_name = "type") then Some (V_STRING (_target_type self)) else None.

Definition OScriptNodeTypeCast__set (p_name : StringName) (p_value : Variant)
    (self : OScriptNodeTypeCast) : option (bool * OScriptNodeTypeCast) :=
  if decide (p_name = "type") then
    t ← variant_to_String p_value;
    Some (true, {| cast_super := _notify_pins_changed (cast_super self);
                   _target_type := t |})
  else Some (false, self).

Definition OScriptNodeTypeCast__get_target_type (self : OScriptNodeTypeCast) : string :=
  StringUtils.default_if_empty (_target_type self) "Object".

Definition OScriptNodeTypeCast_allocate_default_pins (self : OScriptNodeTypeCast)
  : OScriptNodeTypeCast :=
  let n := cast_super self in
  let '(r, n) := create_pin PD_Input [] "ExecIn" VariantType.NIL V_NIL n in
  let n := deref_pin r (set_flags [EXECUTION]) n in
  let '(r, n) := create_pin PD_Input [] "instance" VariantType.OBJECT V_NIL n in
  let n := deref_pin r (set_flags [DATA; OBJECT]) n in
  let '(yes, n) := create_pin PD_Output [] "yes" VariantType.NIL V_NIL n in
  let n := deref_pin yes (set_flags [EXECUTION; SHOW_LABEL]) n in
  let '(no, n) := create_pin PD_Output [] "no" VariantType.NIL V_NIL n in
  let n := deref_pin no (set_flags [EXECUTION; SHOW_LABEL]) n in
  let '(output, n) := create_pin PD_Output [] "output" VariantType.OBJECT V_NIL n in
  let n := deref_pin output (set_flags [DATA; OBJECT; NO_CAPITALIZE]) n in
  let n := deref_pin output
             (set_label ("as " +:+ StringUtils.default_if_empty (_target_type self) "Object")) n in
  {| cast_super := n; _target_type := _target_type self |}.

Definition OScriptNodeTypeCast_get_node_title (self : OScriptNodeTypeCast) : string :=
  "Cast To " +:+ OScriptNodeTypeCast__get_target_type self.

Definition OScriptNodeTypeCast_get_tooltip_text (self : OScriptNodeTypeCast) : string :=
  if negb (bool_decide (OScriptNodeTypeCast__get_target_type self = "")) then
    "Tries to access the object as a '" +:+ OScriptNodeTypeCast__get_target_type self
      +:+ "', it may be an instance of."
  else "Tries to access the object as the given type.".

(** [virtual String get_icon() const { return "Object"; }] *)
Definition OScriptNode_get_icon : string := "Object".

Definition OScriptNodeTypeCast_get_icon (self : OScriptNodeTypeCast) : string :=
  StringUtils.default_if_empty (_target_type self) OScriptNode_get_icon.

Definition OScriptNodeTypeCast_instantiate (self : OScriptNodeTypeCast)
    (p_instance : Z) : OScriptNodeTypeCastInstance :=
  {| cast_node := _id (cast_super self);
     cast_instance := p_instance;
     _target_class := _target_type self |}.

Definition OScriptNodeTypeCast_resolve_type_class (self : OScriptNodeTypeCast)
    (p_pin : OScriptNodePin) : StringName :=
  if is_output p_pin then
    match pin_index p_pin with
    | 1%nat => "Object"
    | 0%nat | 2%nat => StringUtils.default_if_empty (_target_type self) "Object"
    | _ => OScriptNode_resolve_type_class p_pin
    end
  else OScriptNode_resolve_type_class p_pin.

(** The store of live type-cast nodes after a property write on one of
    them. *)
Definition set_property (p_nodes : gmap Z OScriptNodeTypeCast) (p_id : Z)
    (p_name : StringName) (p_value : Variant)
  : option (gmap Z OScriptNodeTypeCast) :=
  n ← p_nodes !! p_id;
  r ← OScriptNodeTypeCast__set p_name p_value n;
  Some (<[p_id := snd r]> p_nodes).

(** ** The select node *)

Record OScriptNodeSelect := mkSelect {
  select_super : OScriptNode;
  _type : Z
}.

Record OScriptNodeSelectInstance := mkSelectInstance {
  select_node : Z
}.

Definition OScriptNodeSelectInstance_step (self : OScriptNodeSelectInstance)
    (p_context : OScriptExecutionContext)
  : option (Z * OScriptExecutionContext) :=
  pick_a ← get_input p_context 2;
  p_context ←
    (if booleanize pick_a then
       a ← get_input p_context 0; set_output p_context 0 a
     else
       b ← get_input p_context 1; set_output p_context 0 b);
  Some (0, p_context).

(** [p_name.match("type")]: the pattern has no wildcard, so the match is an
    equality. *)
Definition OScriptNodeSelect__get (p_name : StringName) (self : OScriptNodeSelect)
  : option Variant :=
  if decide (p_name = "type") then Some (V_INT (wrap_int (_type self - 1)))
  else None.

Definition OScriptNodeSelect__set (p_name : StringName) (p_value : Variant)
    (self : OScriptNodeSelect) : option (bool * OScriptNodeSelect) :=
  if decide (p_name = "type") then
    t ← variant_to_int p_value;
    let t := wrap_int (t + 1) in
    Some (true, {| select_super := _notify_pins_changed (select_super self);
                   _type := t |})
  else Some (false, self).

Section Select.
(** [VariantUtils::to_type] ([common/variant_utils.h]) is not among the
    sources: it turns the stored [int] into a [Variant::Type]. *)
Variable to_type : Z → Z.
Variable accepts : OScriptNodePin → OScriptNodePin → bool.

Definition OScriptNodeSelect_allocate_default_pins (self : OScriptNodeSelect)
  : OScriptNodeSelect :=
  let type := to_type (_type self) in
  let n := select_super self in
  let '(_, n) := create_pin PD_Input [DATA] "a" type V_NIL n in
  let '(_, n) := create_pin PD_Input [DATA] "b" type V_NIL n in
  let '(_, n) := create_pin PD_Input [DATA] "pick_a" VariantType.BOOL (V_BOOL false) n in
  let '(_, n) := create_pin PD_Output [DATA] "result" type V_NIL n in
  {| select_super := OScriptNode_allocate_default_pins n; _type := _type self |}.

(** [reconstruct_node()] on a select node: the base algorithm, with the
    virtual call to [allocate_default_pins] landing in the override. *)
Definition OScriptNodeSelect_reconstruct_node (self : OScriptNodeSelect)
  : OScriptNodeSelect :=
  {| select_super :=
       reconstruct_node accepts
         (λ n, select_super
                 (OScriptNodeSelect_allocate_default_pins
                    {| select_super := n; _type := _type self |}))
         (select_super self);
     _type := _type self |}.

(** [_type] is an [int]; the enumeration value is stored as it is. *)
Definition OScriptNodeSelect_change_pin_types (p_type : Z) (self : OScriptNodeSelect)
  : option OScriptNodeSelect :=
  let n := select_super self in
  n ← on_pin (find_pin "a" PD_Input n) (set_type p_type) n;
  n ← on_pin (find_pin "b" PD_Input n) (set_type p_type) n;
  n ← on_pin (find_pin "result" PD_Output n) (set_type p_type) n;
  Some (OScriptNodeSelect_reconstruct_node {| select_super := n; _type := p_type |}).
End Select.

Definition OScriptNodeSelect_instantiate (self : OScriptNodeSelect)
  : OScriptNodeSelectInstance :=
  {| select_node := _id (select_super self) |}.

Definition OScriptNodeSelect_get_node_title : string := "Select".

(** ** Property lists, initialization and the choice of pin types *)

Inductive PropertyHint := PROPERTY_HINT_ENUM | PROPERTY_HINT_TYPE_STRING.

Inductive PropertyUsage := PROPERTY_USAGE_DEFAULT | PROPERTY_USAGE_STORAGE.

(** The fields of the engine's [PropertyInfo] that the nodes fill in. *)
Record PropertyInfo := mkPropertyInfo {
  info_type : Z;
  info_name : string;
  info_hint : PropertyHint;
  info_hint_string : string;
  info_usage : PropertyUsage
}.

(** [_get_property_list] pushes its entries at the back of [r_list]. *)
Definition OScriptNodeTypeCast__get_property_list (r_list : list PropertyInfo)
  : list PropertyInfo :=
  r_list ++ [mkPropertyInfo VariantType.STRING "type" PROPERTY_HINT_TYPE_STRING
               "Object" PROPERTY_USAGE_DEFAULT].

(** [types] is the string that [VariantUtils::to_enum_list(false)]
    ([common/variant_utils.h], not among the sources) returns. *)
Definition OScriptNodeSelect__get_property_list (types : string)
    (r_list : list PropertyInfo) : list PropertyInfo :=
  r_list ++ [mkPropertyInfo VariantType.INT "type" PROPERTY_HINT_ENUM types
               PROPERTY_USAGE_STORAGE].

(** [OScriptNodeInitContext]: every field is optional.  The method
    signature, the node path and the user data carry engine types that the
    nodes here never read; they are left out. *)
Record OScriptNodeInitContext := mkInitContext {
  property : option PropertyInfo;
  class_name : option StringName;
  variable_name : option string;
  resource_path : option string
}.

(** [initialize]: [super_initialize] stands for [OScriptNode::initialize]
    ([node.cpp], not among the sources), which the override calls last, on
    the base part of the node. *)
Definition OScriptNodeTypeCast_initialize
    (super_initialize : OScriptNodeInitContext → OScriptNode → OScriptNode)
    (p_context : OScriptNodeInitContext) (self : OScriptNodeTypeCast)
  : OScriptNodeTypeCast :=
  let self :=
    match class_name p_context with
    | Some class_name =>
        if negb (bool_decide (class_name = "")) then
          {| cast_super := cast_super self; _target_type := class_name |}
        else self
    | None => self
    end in
  {| cast_super := super_initialize p_context (cast_super self);
     _target_type := _target_type self |}.

Section PossiblePinTypes.
Variable to_type : Z → Z.
(** [Variant::VARIANT_MAX], the number of variant types of the engine. *)
Variable VARIANT_MAX : Z.

(** The loop [for (int i = 1; i < VARIANT_MAX; i++)] with its [break];
    [fuel] bounds the number of iterations. *)
Fixpoint get_possible_pin_types_loop (fuel : nat) (i : Z) (types : list Z)
  : list Z :=
  match fuel with
  | O => types
  | S fuel =>
      if decide (i < VARIANT_MAX) then
        if decide (i >= VariantType.RID) then types
        else get_possible_pin_types_loop fuel (i + 1) (types ++ [to_type i])
      else types
  end.

Definition OScriptNodeSelect_get_possible_pin_types : list Z :=
  get_possible_pin_types_loop (Z.to_nat VARIANT_MAX) 1 [].
End PossiblePinTypes.

(** * Vocabulary of the statements *)

(** The context after [set_output(0, value)]. *)
Definition written (p_context : OScriptExecutionContext) (v : Variant) :=
  {| _inputs := _inputs p_context;
     _outputs := <[0%nat := v]> (_outputs p_context) |}.

(** Pins are told apart by direction and name. *)
Definition pin_key (p : OScriptNodePin) : EPinDirection * string :=
  (pin_direction p, pin_name p).

(** The new pin has the direction, name and type of the old one. *)
Definition same_shape (old new : OScriptNodePin) : Prop :=
  pin_direction new = pin_direction old
  ∧ pin_name new = pin_name old
  ∧ pin_type new = pin_type old.

(** The new pin carries exactly the connections of the old one. *)
Definition rewired (old new : OScriptNodePin) : Prop :=
  same_shape old new ∧ pin_connections new = pin_connections old.

(** What the rewiring loop leaves in the place of a new pin that an old
    pin has met. *)
Definition met (accepts : OScriptNodePin → OScriptNodePin → bool)
    (new old : OScriptNodePin) : OScriptNodePin :=
  if compatible accepts new old then migrate old new else new.

(** The pins that [allocate_default_pins] creates on a select node whose
    id is [id] and whose pin type is [type]. *)
Definition select_default_pins (id : Z) (type : Z) : list OScriptNodePin :=
  [ mkPin (Some id) PD_Input 0 "a" type [DATA] V_NIL "" [];
    mkPin (Some id) PD_Input 1 "b" type [DATA] V_NIL "" [];
    mkPin (Some id) PD_Input 2 "pick_a" VariantType.BOOL [DATA] (V_BOOL false) "" [];
    mkPin (Some id) PD_Output 0 "result" type [DATA] V_NIL "" [] ].

(** The node's pins are those [allocate_default_pins] creates for its
    current [_type], with whatever connections they have gathered. *)
Definition select_pins_allocated (to_type : Z → Z) (self : OScriptNodeSelect) : Prop :=
  Forall2 (λ p q, set_connections [] p = q)
    (_pins (select_super self))
    (_pins (select_super
       (OScriptNodeSelect_allocate_default_pins to_type
          {| select_super := with_pins [] (select_super self);
             _type := _type self |}))).

(** No class of the table, and no ancestor of one, has the empty name. *)
Definition class_names_nonempty (db : ClassDB.classes) : Prop :=
  Forall (λ c, "" ∉ ClassDB.name c :: ClassDB.ancestors c) db.

(** Within each direction the pin indices count up from zero, in pin
    order. *)
Definition indices_contiguous (pins : list OScriptNodePin) : Prop :=
  ∀ d, map pin_index (filter (λ p, pin_direction p = d) pins)
       = seq 0 (count_direction d pins).

(** The five pins that [allocate_default_pins] creates on a type-cast node
    whose id is [id], after [i] input pins and [o] output pins. *)
Definition cast_default_pins (id : Z) (i o : nat) (target : string)
  : list OScriptNodePin :=
  [ mkPin (Some id) PD_Input i "ExecIn" VariantType.NIL [EXECUTION] V_NIL "" [];
    mkPin (Some id) PD_Input (S i) "instance" VariantType.OBJECT [DATA; OBJECT]
      V_NIL "" [];
    mkPin (Some id) PD_Output o "yes" VariantType.NIL [EXECUTION; SHOW_LABEL]
      V_NIL "" [];
    mkPin (Some id) PD_Output (S o) "no" VariantType.NIL [EXECUTION; SHOW_LABEL]
      V_NIL "" [];
    mkPin (Some id) PD_Output (S (S o)) "output" VariantType.OBJECT
      [DATA; OBJECT; NO_CAPITALIZE] V_NIL
      ("as " +:+ StringUtils.default_if_empty target "Object") [] ].

(** The four pins of a select node, created after [i] input pins and [o]
    output pins. *)
Definition select_pins_after (id : Z) (i o : nat) (type : Z)
  : list OScriptNodePin :=
  [ mkPin (Some id) PD_Input i "a" type [DATA] V_NIL "" [];
    mkPin (Some id) PD_Input (S i) "b" type [DATA] V_NIL "" [];
    mkPin (Some id) PD_Input (S (S i)) "pick_a" VariantType.BOOL [DATA]
      (V_BOOL false) "" [];
    mkPin (Some id) PD_Output o "result" type [DATA] V_NIL "" [] ].

(** What a step may change in a context: nothing but output slot 0. *)
Definition context_frame (before after : OScriptExecutionContext) : Prop :=
  _inputs after = _inputs before
  ∧ length (_outputs after) = length (_outputs before)
  ∧ ∀ i, i ≠ 0%nat → _outputs after !! i = _outputs before !! i.

#[global] Instance class_names_nonempty_dec db : Decision (class_names_nonempty db).
Proof. unfold class_names_nonempty. apply _. Defined.

#[global] Instance strict_descendant_dec db c t : Decision (ClassDB.strict_descendant db c t).
Proof. unfold ClassDB.strict_descendant. destruct (ClassDB.getptr db c); apply _. Defined.

#[global] Instance descendant_or_self_dec db c t : Decision (ClassDB.descendant_or_self db c t).
Proof. unfold ClassDB.descendant_or_self. destruct (ClassDB.getptr db c); apply _. Defined.

#[global] Instance unrelated_dec db c t : Decision (ClassDB.unrelated db c t).
Proof. unfold ClassDB.unrelated. apply _. Defined.

#[global] Instance ancestor_or_self_dec db c t : Decision (ClassDB.ancestor_or_self db c t).
Proof. unfold ClassDB.ancestor_or_self. apply _. Defined.

(** ** Example data *)

(** A small class hierarchy for the examples: [Object] is the root,
    [Node2D] and [Sprite2D] descend from [Node], [Resource] does not. *)
Definition class_Object := ClassDB.RootClass "Object".
Definition class_Node := ClassDB.DerivedClass "Node" class_Object.
Definition class_Node2D := ClassDB.DerivedClass "Node2D" class_Node.
Definition class_Sprite2D := ClassDB.DerivedClass "Sprite2D" class_Node2D.
Definition class_Resource := ClassDB.DerivedClass "Resource" class_Object.
Definition example_classes : ClassDB.classes :=
  [class_Object; class_Node; class_Node2D; class_Sprite2D; class_Resource].

Definition example_object (id : Z) (c : string) : Variant :=
  V_OBJECT (Some (mkObject id c)).
Definition example_context (v : Variant) : OScriptExecutionContext :=
  {| _inputs := [v]; _outputs := [V_NIL] |}.
Definition example_cast_to (t : string) : OScriptNodeTypeCastInstance :=
  {| cast_node := 7; cast_instance := 1; _target_class := t |}.

Definition example_node (id : Z) : OScriptNode :=
  {| _initialized := true; _id := id; _pins := [];
     _reconstructing := false; _emitted := [] |}.

Definition example_cast_node (t : string) : OScriptNodeTypeCast :=
  {| cast_super := example_node 7; _target_type := t |}.

Definition example_pin (node : Z) (d : EPinDirection) (i : nat) (name : string)
    (connections : list PinRef) : OScriptNodePin :=
  {| pin_owning_node := Some node; pin_direction := d; pin_index := i;
     pin_name := name; pin_type := VariantType.INT; pin_flags := [DATA];
     pin_default_value := V_NIL; pin_label := "";
     pin_connections := connections |}.

(** A select node of type [INT] whose pins are connected. *)
Definition example_select : OScriptNodeSelect :=
  {| select_super :=
       {| _initialized := true; _id := 3;
          _pins :=
            [ mkPin (Some 3) PD_Input 0 "a" 2 [DATA] V_NIL ""
                [mkPinRef 5 PD_Output 0];
              mkPin (Some 3) PD_Input 1 "b" 2 [DATA] V_NIL "" [];
              mkPin (Some 3) PD_Input 2 "pick_a" VariantType.BOOL [DATA]
                (V_BOOL false) "" [mkPinRef 6 PD_Output 1];
              mkPin (Some 3) PD_Output 0 "result" 2 [DATA] V_NIL ""
                [mkPinRef 8 PD_Input 0; mkPinRef 9 PD_Input 1] ];
          _reconstructing := false; _emitted := [] |};
     _type := 2 |}.

Definition example_allocate (n : OScriptNode) : OScriptNode :=
  select_super
    (OScriptNodeSelect_allocate_default_pins (λ t, t)
       {| select_super := n; _type := 2 |}).

(** * Properties *)

(** ** Class database *)

Section ClassDBFacts.
Import ClassDB.

Lemma getptr_name db c ci : getptr db c = Some ci → name ci = c.
Proof.
  unfold getptr. intros H.
  destruct (list_find _ db) as [[i x]|] eqn:E; [|done].
  injection H as <-. by apply list_find_Some in E as (_ & ? & _).
Qed.

Lemma walk_spec c t : walk c t = true ↔ name c = t ∨ t ∈ ancestors c.
Proof.
  induction c as [n|n parent IH]; simpl.
  - destruct (decide (n = t)) as [->|Hne]; [tauto|].
    split; [done|]. intros [?|H]; [done|]. by apply elem_of_nil in H.
  - destruct (decide (n = t)) as [->|Hne]; [tauto|].
    rewrite IH, elem_of_cons. naive_solver.
Qed.

Lemma is_parent_class_spec db c t :
  is_parent_class db c t = true ↔ descendant_or_self db c t.
Proof.
  unfold is_parent_class, descendant_or_self.
  destruct (getptr db c) as [ci|] eqn:E; [|done].
  rewrite walk_spec, (getptr_name _ _ _ E). naive_solver.
Qed.

Lemma strict_descendant_or_self db c t :
  strict_descendant db c t → descendant_or_self db c t.
Proof.
  unfold strict_descendant, descendant_or_self.
  destruct (getptr db c); tauto.
Qed.

Lemma descendant_or_self_cases db c t :
  descendant_or_self db c t → c = t ∨ strict_descendant db c t.
Proof.
  unfold strict_descendant, descendant_or_self.
  destruct (getptr db c); naive_solver.
Qed.

Lemma unrelated_not_descendant db c t :
  unrelated db c t → ¬ descendant_or_self db c t.
Proof.
  intros (Hne & Hd & _) H.
  apply descendant_or_self_cases in H as [?|?]; tauto.
Qed.

End ClassDBFacts.

(** ** The step of the type-cast instance *)

Section TypeCastStep.
Variable db : ClassDB.classes.
Variable p_nodes : gmap Z OScriptNodeTypeCast.
Variable self : OScriptNodeTypeCastInstance.

Lemma step_hit p_context object :
  get_input p_context 0 = Some (V_OBJECT (Some object)) →
  is_Some (_outputs p_context !! 0%nat) →
  ClassDB.descendant_or_self db (get_class object) (_target_class self) →
  OScriptNodeTypeCastInstance_step db p_nodes self p_context
  = Some (0, written p_context (V_OBJECT (Some object))).
Proof.
  intros Hin [out Hout] Hd. unfold OScriptNodeTypeCastInstance_step.
  rewrite Hin. simpl.
  apply is_parent_class_spec in Hd. rewrite Hd.
  unfold set_output. by rewrite Hout.
Qed.

Lemma step_miss p_context input :
  get_input p_context 0 = Some input →
  ¬ (∃ object, input = V_OBJECT (Some object)
      ∧ ClassDB.descendant_or_self db (get_class object) (_target_class self)) →
  OScriptNodeTypeCastInstance_step db p_nodes self p_context
  = Some (1, p_context).
Proof.
  intros Hin Hno. unfold OScriptNodeTypeCastInstance_step.
  rewrite Hin. simpl.
  destruct input as [| | | |[object|]]; simpl; try done.
  destruct (ClassDB.is_parent_class _ _ _) eqn:E; [|done].
  apply is_parent_class_spec in E. destruct Hno. eauto.
Qed.
End TypeCastStep.

(** C1.  When input 0 holds a non-null object, a runtime class that is a
    strict descendant of the frozen target class makes [step] write that
    same object reference to output 0 and return control index 0; a runtime
    class unrelated to the target class makes [step] return control index 1
    with the context as it was.  The result is an ordinary return in both
    cases: the control index and the unwritten output are the only signal. *)
Theorem type_cast_step_descendant_or_unrelated
    (db : ClassDB.classes) (p_nodes : gmap Z OScriptNodeTypeCast)
    (self : OScriptNodeTypeCastInstance)
    (p_context : OScriptExecutionContext) (object : Object) :
  get_input p_context 0 = Some (V_OBJECT (Some object)) →
  (ClassDB.strict_descendant db (get_class object) (_target_class self) →
   is_Some (_outputs p_context !! 0%nat) →
   OScriptNodeTypeCastInstance_step db p_nodes self p_context
   = Some (0, written p_context (V_OBJECT (Some object))))
  ∧ (ClassDB.unrelated db (get_class object) (_target_class self) →
     OScriptNodeTypeCastInstance_step db p_nodes self p_context
     = Some (1, p_context)).
Proof.
  intros Hin. split.
  - intros Hd Hout. apply step_hit; [done..|].
    by apply strict_descendant_or_self.
  - intros Hu. apply (step_miss _ _ _ _ _ Hin).
    intros (o & [= <-] & Hd). by apply unrelated_not_descendant in Hu.
Qed.

Lemma type_cast_step_descendant_or_unrelated_witness :
  OScriptNodeTypeCastInstance_step example_classes ∅ (example_cast_to "Node")
    (example_context (example_object 42 "Sprite2D"))
  = Some (0, {| _inputs := [example_object 42 "Sprite2D"];
                _outputs := [example_object 42 "Sprite2D"] |})
  ∧ OScriptNodeTypeCastInstance_step example_classes ∅ (example_cast_to "Node")
      (example_context (example_object 43 "Resource"))
    = Some (1, example_context (example_object 43 "Resource")).
Proof.
  split.
  - apply (type_cast_step_descendant_or_unrelated example_classes ∅
             (example_cast_to "Node")
             (example_context (example_object 42 "Sprite2D"))
             (mkObject 42 "Sprite2D")).
    + reflexivity.
    + apply (bool_decide_unpack _). vm_compute. exact I.
    + exists V_NIL. reflexivity.
  - apply (type_cast_step_descendant_or_unrelated example_classes ∅
             (example_cast_to "Node")
             (example_context (example_object 43 "Resource"))
             (mkObject 43 "Resource")).
    + reflexivity.
    + apply (bool_decide_unpack _). vm_compute. exact I.
Defined.

(** C3, as the code has it.  [step] writes input 0 unchanged to output 0
    and returns the "yes" index 0 exactly when input 0 holds a non-null
    object whose runtime class is the frozen target class or one of its
    descendants; in every other case it returns the "no" index 1 and leaves
    the context as it was. *)
Theorem type_cast_step_descendant_or_self
    (db : ClassDB.classes) (p_nodes : gmap Z OScriptNodeTypeCast)
    (self : OScriptNodeTypeCastInstance)
    (p_context : OScriptExecutionContext) (input : Variant) :
  get_input p_context 0 = Some input →
  ((∃ object, input = V_OBJECT (Some object)
      ∧ ClassDB.descendant_or_self db (get_class object) (_target_class self)) →
   is_Some (_outputs p_context !! 0%nat) →
   OScriptNodeTypeCastInstance_step db p_nodes self p_context
   = Some (0, written p_context input))
  ∧ (¬ (∃ object, input = V_OBJECT (Some object)
          ∧ ClassDB.descendant_or_self db (get_class object) (_target_class self)) →
     OScriptNodeTypeCastInstance_step db p_nodes self p_context
     = Some (1, p_context)).
Proof.
  intros Hin. split.
  - intros (object & -> & Hd) Hout. by apply step_hit.
  - intros Hno. by apply (step_miss _ _ _ _ _ Hin).
Qed.

Lemma type_cast_step_descendant_or_self_witness :
  OScriptNodeTypeCastInstance_step example_classes ∅ (example_cast_to "Node2D")
    (example_context (example_object 42 "Node2D"))
  = Some (0, {| _inputs := [example_object 42 "Node2D"];
                _outputs := [example_object 42 "Node2D"] |})
  ∧ OScriptNodeTypeCastInstance_step example_classes ∅ (example_cast_to "Node2D")
      (example_context (V_INT 5))
    = Some (1, example_context (V_INT 5)).
Proof.
  split.
  - apply (type_cast_step_descendant_or_self example_classes ∅
             (example_cast_to "Node2D")
             (example_context (example_object 42 "Node2D"))
             (example_object 42 "Node2D")).
    + reflexivity.
    + exists (mkObject 42 "Node2D"). split; [reflexivity|].
      apply (bool_decide_unpack _). vm_compute. exact I.
    + exists V_NIL. reflexivity.
  - apply (type_cast_step_descendant_or_self example_classes ∅
             (example_cast_to "Node2D")
             (example_context (V_INT 5)) (V_INT 5)).
    + reflexivity.
    + intros (object & Hobj & _). discriminate Hobj.
Defined.

(** C3, as stated, does not hold: an object whose runtime class [Node] is
    an ancestor of the frozen target class [Node2D] takes the "no" path and
    output 0 stays unwritten. *)
Lemma type_cast_step_ancestor_counterexample :
  ¬ (∀ (db : ClassDB.classes) (p_nodes : gmap Z OScriptNodeTypeCast)
       (self : OScriptNodeTypeCastInstance)
       (p_context : OScriptExecutionContext) (object : Object),
       get_input p_context 0 = Some (V_OBJECT (Some object)) →
       is_Some (_outputs p_context !! 0%nat) →
       ClassDB.ancestor_or_self db (get_class object) (_target_class self) →
       OScriptNodeTypeCastInstance_step db p_nodes self p_context
       = Some (0, written p_context (V_OBJECT (Some object)))).
Proof.
  intros H.
  specialize (H example_classes ∅ (example_cast_to "Node2D")
                (example_context (example_object 42 "Node"))
                (mkObject 42 "Node")).
  assert (Hstep : OScriptNodeTypeCastInstance_step example_classes ∅
                    (example_cast_to "Node2D")
                    (example_context (example_object 42 "Node"))
                  = Some (1, example_context (example_object 42 "Node")))
    by reflexivity.
  rewrite Hstep in H.
  assert (Hne : Some (1, example_context (example_object 42 "Node"))
                ≠ Some (0, written (example_context (example_object 42 "Node"))
                             (V_OBJECT (Some (mkObject 42 "Node")))))
    by discriminate.
  apply Hne, H.
  - reflexivity.
  - exists V_NIL. reflexivity.
  - apply (bool_decide_unpack _). vm_compute. exact I.
Qed.

(** ** The step of the select instance *)

(** C2.  [step] reads input 2 as a boolean; when it is true input 0 is
    written to output 0, otherwise input 1 is, and the control index
    returned is 0 in both cases. *)
Theorem select_step_picks
    (self : OScriptNodeSelectInstance) (p_context : OScriptExecutionContext)
    (a b pick_a : Variant) :
  get_input p_context 0 = Some a →
  get_input p_context 1 = Some b →
  get_input p_context 2 = Some pick_a →
  is_Some (_outputs p_context !! 0%nat) →
  OScriptNodeSelectInstance_step self p_context
  = Some (0, written p_context (if booleanize pick_a then a else b)).
Proof.
  intros Ha Hb Hp [out Hout]. unfold OScriptNodeSelectInstance_step.
  rewrite Hp. simpl.
  destruct (booleanize pick_a); [rewrite Ha|rewrite Hb]; simpl;
    unfold set_output; by rewrite Hout.
Qed.

Lemma select_step_picks_witness :
  OScriptNodeSelectInstance_step (mkSelectInstance 3)
    {| _inputs := [V_STRING "x"; V_STRING "y"; V_BOOL true]; _outputs := [V_NIL] |}
  = Some (0, {| _inputs := [V_STRING "x"; V_STRING "y"; V_BOOL true];
                _outputs := [V_STRING "x"] |})
  ∧ OScriptNodeSelectInstance_step (mkSelectInstance 3)
      {| _inputs := [V_STRING "x"; V_STRING "y"; V_BOOL false]; _outputs := [V_NIL] |}
    = Some (0, {| _inputs := [V_STRING "x"; V_STRING "y"; V_BOOL false];
                  _outputs := [V_STRING "y"] |}).
Proof.
  split.
  - apply (select_step_picks (mkSelectInstance 3)
             {| _inputs := [V_STRING "x"; V_STRING "y"; V_BOOL true];
                _outputs := [V_NIL] |}
             (V_STRING "x") (V_STRING "y") (V_BOOL true));
      [reflexivity | reflexivity | reflexivity | exists V_NIL; reflexivity].
  - apply (select_step_picks (mkSelectInstance 3)
             {| _inputs := [V_STRING "x"; V_STRING "y"; V_BOOL false];
                _outputs := [V_NIL] |}
             (V_STRING "x") (V_STRING "y") (V_BOOL false));
      [reflexivity | reflexivity | reflexivity | exists V_NIL; reflexivity].
Defined.

(** ** The "type" property of the select node *)

Lemma wrap_int_id z : INT_MIN ≤ z ≤ INT_MAX → wrap_int z = z.
Proof.
  unfold INT_MIN, INT_MAX, wrap_int. intros H.
  rewrite Z.mod_small; lia.
Qed.

(** C8.  For every integer [v] that an [int] holds without overflow in
    [v + 1], [_set("type", v)] is accepted and a following [_get("type")]
    answers [v]: the [+ 1] of the setter and the [- 1] of the getter
    cancel. *)
Theorem select_type_property_roundtrip (v : Z) (self : OScriptNodeSelect) :
  INT_MIN ≤ v < INT_MAX →
  ∃ self', OScriptNodeSelect__set "type" (V_INT v) self = Some (true, self')
           ∧ _type self' = v + 1
           ∧ OScriptNodeSelect__get "type" self' = Some (V_INT v).
Proof.
  intros Hv. unfold OScriptNodeSelect__set, OScriptNodeSelect__get. simpl.
  eexists. split; [reflexivity|]. simpl.
  assert (Hv' : INT_MIN ≤ v ≤ INT_MAX) by lia.
  rewrite (wrap_int_id v Hv').
  assert (H1 : wrap_int (v + 1) = v + 1)
    by (apply wrap_int_id; unfold INT_MIN, INT_MAX in *; lia).
  rewrite H1. split; [reflexivity|].
  replace (v + 1 - 1) with v by lia. by rewrite (wrap_int_id v Hv').
Qed.

Lemma select_type_property_roundtrip_witness :
  ∃ self', OScriptNodeSelect__set "type" (V_INT 3) (mkSelect (example_node 3) 0)
           = Some (true, self')
           ∧ _type self' = 3 + 1
           ∧ OScriptNodeSelect__get "type" self' = Some (V_INT 3).
Proof.
  apply (select_type_property_roundtrip 3 (mkSelect (example_node 3) 0)).
  unfold INT_MIN, INT_MAX. lia.
Defined.

(** ** Compiling the type-cast node *)

(** C6.  [instantiate] copies the node's configured target type into the
    instance.  Whatever the live nodes become afterwards, the step of an
    instance compiled earlier is the same: in particular, after the node's
    "type" property is set to another class, the node holds the new class,
    the instance still holds the old one and steps as before. *)
Theorem type_cast_instance_is_frozen
    (db : ClassDB.classes) (p_nodes : gmap Z OScriptNodeTypeCast)
    (node : OScriptNodeTypeCast) (p_instance : Z) (t : string) :
  p_nodes !! _id (cast_super node) = Some node →
  let i := OScriptNodeTypeCast_instantiate node p_instance in
  _target_class i = _target_type node
  ∧ (∀ later p_context,
       OScriptNodeTypeCastInstance_step db later i p_context
       = OScriptNodeTypeCastInstance_step db p_nodes i p_context)
  ∧ ∃ later node',
      set_property p_nodes (cast_node i) "type" (V_STRING t) = Some later
      ∧ later !! cast_node i = Some node'
      ∧ _target_type node' = t
      ∧ _target_class i = _target_type node
      ∧ ∀ p_context,
          OScriptNodeTypeCastInstance_step db later i p_context
          = OScriptNodeTypeCastInstance_step db p_nodes i p_context.
Proof.
  intros Hnode i. split; [reflexivity|]. split; [reflexivity|].
  unfold set_property. simpl. rewrite Hnode. simpl.
  eexists _, _. split; [reflexivity|].
  split; [apply lookup_insert_eq|]. by repeat split.
Qed.

Lemma type_cast_instance_is_frozen_witness :
  let i := OScriptNodeTypeCast_instantiate (example_cast_node "Node2D") 1 in
  _target_class i = "Node2D"
  ∧ ∃ later node',
      set_property {[ 7 := example_cast_node "Node2D" ]} 7 "type" (V_STRING "Resource")
      = Some later
      ∧ later !! 7 = Some node'
      ∧ _target_type node' = "Resource"
      ∧ OScriptNodeTypeCastInstance_step example_classes later i
          (example_context (example_object 42 "Sprite2D"))
        = OScriptNodeTypeCastInstance_step example_classes
            {[ 7 := example_cast_node "Node2D" ]} i
            (example_context (example_object 42 "Sprite2D")).
Proof.
  intros i.
  assert (Hlive : ({[ 7 := example_cast_node "Node2D" ]} : gmap Z OScriptNodeTypeCast)
                  !! _id (cast_super (example_cast_node "Node2D"))
                  = Some (example_cast_node "Node2D")) by reflexivity.
  destruct (type_cast_instance_is_frozen example_classes
              {[ 7 := example_cast_node "Node2D" ]}
              (example_cast_node "Node2D") 1 "Resource" Hlive)
    as (Hclass & _ & later & node' & Hset & Hlook & Htype & _ & Hstep).
  split; [exact Hclass|].
  exists later, node'.
  split; [exact Hset|]. split; [exact Hlook|]. split; [exact Htype|].
  apply Hstep.
Defined.

(** C10.  With an empty configured target type the compiled instance's
    frozen class is the empty string: [instantiate] copies the raw string,
    while the node title, the label of the output pin and
    [resolve_type_class] on the data output all fall back to "Object". *)
Theorem type_cast_instantiate_keeps_empty_type
    (node : OScriptNodeTypeCast) (p_instance : Z) :
  _target_type node = "" →
  _target_class (OScriptNodeTypeCast_instantiate node p_instance) = ""
  ∧ OScriptNodeTypeCast__get_target_type node = "Object"
  ∧ OScriptNodeTypeCast_get_node_title node = "Cast To Object"
  ∧ ∃ output,
      _pins (cast_super (OScriptNodeTypeCast_allocate_default_pins
               {| cast_super := with_pins [] (cast_super node);
                  _target_type := _target_type node |})) !! 4%nat = Some output
      ∧ pin_name output = "output"
      ∧ pin_label output = "as Object"
      ∧ OScriptNodeTypeCast_resolve_type_class node output = "Object".
Proof.
  intros Hempty. destruct node as [n t]. simpl in *. subst t.
  split; [reflexivity|]. split; [reflexivity|]. split; [reflexivity|].
  eexists. split; [reflexivity|]. by repeat split.
Qed.

Lemma type_cast_instantiate_keeps_empty_type_witness :
  _target_class (OScriptNodeTypeCast_instantiate (example_cast_node "") 1) = ""
  ∧ OScriptNodeTypeCast_get_node_title (example_cast_node "") = "Cast To Object".
Proof.
  destruct (type_cast_instantiate_keeps_empty_type (example_cast_node "") 1)
    as (H1 & _ & H2 & _); [reflexivity|].
  split; [exact H1 | exact H2].
Defined.

(** ** Type resolution on the type-cast node *)

(** C7.  [resolve_type_class] is total, and on the five pins of a type-cast
    node it answers, in pin order: the empty name for the two input pins
    [ExecIn] and [instance], the configured target type or "Object" when
    none is configured for [yes], "Object" for [no], and again the target
    type or "Object" for [output].  The input pins fall through to the base
    class, which is documented as "defaulting to Object" and answers the
    empty name. *)
Theorem type_cast_resolve_type_class_on_pins (node : OScriptNodeTypeCast) :
  let allocated :=
    OScriptNodeTypeCast_allocate_default_pins
      {| cast_super := with_pins [] (cast_super node);
         _target_type := _target_type node |} in
  let pins := _pins (cast_super allocated) in
  let target := StringUtils.default_if_empty (_target_type node) "Object" in
  map pin_name pins = ["ExecIn"; "instance"; "yes"; "no"; "output"]
  ∧ map pin_direction pins = [PD_Input; PD_Input; PD_Output; PD_Output; PD_Output]
  ∧ map (OScriptNodeTypeCast_resolve_type_class node) pins
    = [""; ""; target; "Object"; target]
  ∧ StringUtils.default_if_empty "" "Object" = "Object"
  ∧ OScriptNode_resolve_type_class
      (mkPin (Some (_id (cast_super node))) PD_Input 1 "instance"
         VariantType.OBJECT [DATA; OBJECT] V_NIL "" []) ≠ "Object".
Proof.
  destruct node as [n t]. simpl.
  split; [reflexivity|]. split; [reflexivity|]. split; [reflexivity|].
  split; [reflexivity|discriminate].
Qed.

(** ** Connecting pins *)

(** C5.  Linking two pins of the same direction fails with
    [InvalidConnection] and both pins, hence their connection sets, are
    what they were before the call. *)
Theorem link_same_direction_is_rejected (a b : OScriptNodePin) :
  pin_direction a = pin_direction b →
  link a b = (LinkFailed InvalidConnection, (a, b))
  ∧ pin_connections (fst (snd (link a b))) = pin_connections a
  ∧ pin_connections (snd (snd (link a b))) = pin_connections b.
Proof.
  intros Hdir. unfold link.
  destruct (decide (pin_direction a = pin_direction b)); [|done].
  by repeat split.
Qed.

Lemma link_same_direction_is_rejected_witness :
  link (example_pin 1 PD_Output 0 "result" [mkPinRef 5 PD_Input 0])
       (example_pin 2 PD_Output 0 "value" [])
  = (LinkFailed InvalidConnection,
     (example_pin 1 PD_Output 0 "result" [mkPinRef 5 PD_Input 0],
      example_pin 2 PD_Output 0 "value" [])).
Proof.
  apply (link_same_direction_is_rejected
           (example_pin 1 PD_Output 0 "result" [mkPinRef 5 PD_Input 0])
           (example_pin 2 PD_Output 0 "value" [])).
  reflexivity.
Defined.

(** ** Reconstruction *)

Section RewireFacts.
Variable accepts : OScriptNodePin → OScriptNodePin → bool.

Lemma compatible_same_type new old :
  pin_type new = pin_type old → compatible accepts new old = true.
Proof. intros H. unfold compatible. by rewrite bool_decide_eq_true_2. Qed.

Lemma met_direction new old : pin_direction (met accepts new old) = pin_direction new.
Proof. unfold met. by destruct (compatible accepts new old). Qed.

Lemma met_name new old : pin_name (met accepts new old) = pin_name new.
Proof. unfold met. by destruct (compatible accepts new old). Qed.

Lemma met_type new old : pin_type (met accepts new old) = pin_type new.
Proof. unfold met. by destruct (compatible accepts new old). Qed.

Lemma met_same_type new old :
  pin_type new = pin_type old →
  pin_connections new = [] →
  met accepts new old = set_connections (pin_connections old) new.
Proof.
  intros Ht Hc. unfold met, migrate.
  by rewrite compatible_same_type, Hc.
Qed.

Lemma find_after_prefix old new (pre rest : list OScriptNodePin) :
  same_direction_and_name old new →
  pin_key old ∉ map pin_key pre →
  list_find (same_direction_and_name old) (pre ++ new :: rest)
  = Some (length pre, new).
Proof.
  intros Hs Hpre. apply list_find_Some. split; [|split].
  - by rewrite list_lookup_middle.
  - done.
  - intros j y Hy Hj [Hyd Hyn]. apply Hpre.
    rewrite lookup_app_l in Hy by done.
    apply list_elem_of_lookup_2 in Hy.
    apply list_elem_of_fmap. exists y. split; [|done].
    unfold pin_key. by rewrite Hyd, Hyn.
Qed.

(** One step of the rewiring loop when old and new pins agree on
    direction and name place by place: the old pin meets its namesake
    right after the pins already visited. *)
Lemma rewire_pin_next all_old old new (pre rest : list OScriptNodePin) :
  same_direction_and_name old new →
  pin_key old ∉ map pin_key pre →
  rewire_pin accepts all_old (pre ++ new :: rest) old
  = (pre ++ [met accepts new old]) ++ rest.
Proof.
  intros Hs Hpre. unfold rewire_pin, met.
  rewrite (find_after_prefix _ _ _ _ Hs Hpre).
  rewrite <- app_assoc. simpl.
  destruct (compatible accepts new old); [|done].
  rewrite insert_app_r_alt by done.
  by rewrite Nat.sub_diag.
Qed.

Lemma rewire_loop all_old (olds : list OScriptNodePin) :
  ∀ pre fresh,
    Forall2 same_direction_and_name olds fresh →
    NoDup (map pin_key olds) →
    (∀ old, old ∈ olds → pin_key old ∉ map pin_key pre) →
    fold_left (rewire_pin accepts all_old) olds (pre ++ fresh)
    = pre ++ zip_with (met accepts) fresh olds.
Proof.
  induction olds as [|old olds IH]; intros pre fresh Hshape Hnd Hpre.
  - apply Forall2_nil_inv_l in Hshape as ->. reflexivity.
  - apply Forall2_cons_inv_l in Hshape as (new & fresh' & Hs & Hshape & ->).
    simpl in Hnd. apply NoDup_cons in Hnd as [Hold Hnd].
    simpl. rewrite rewire_pin_next; [|done|apply Hpre; left].
    rewrite IH; [by rewrite <- app_assoc|done..|].
    intros old' Hin. rewrite fmap_app, elem_of_app. intros [Hin'|Hin'].
    + by apply (Hpre old'); [right|].
    + simpl in Hin'. apply list_elem_of_singleton in Hin'.
      apply Hold. apply list_elem_of_fmap. exists old'. split; [|done].
      destruct Hs as (Hd & Hn). rewrite Hin'. unfold pin_key.
      by rewrite met_direction, met_name, Hd, Hn.
Qed.

Lemma rewire_old_pins_to_new_pins_zip (olds fresh : list OScriptNodePin) :
  Forall2 same_direction_and_name olds fresh →
  NoDup (map pin_key olds) →
  rewire_old_pins_to_new_pins accepts olds fresh = zip_with (met accepts) fresh olds.
Proof.
  intros Hshape Hnd. unfold rewire_old_pins_to_new_pins.
  apply (rewire_loop olds olds [] fresh Hshape Hnd).
  intros old _ Hin. by apply elem_of_nil in Hin.
Qed.

Lemma same_shape_direction_and_name (olds fresh : list OScriptNodePin) :
  Forall2 same_shape olds fresh → Forall2 same_direction_and_name olds fresh.
Proof.
  intros H. eapply Forall2_impl; [exact H|].
  intros old new (Hd & Hn & _). by split.
Qed.

Lemma zip_rewired (olds fresh : list OScriptNodePin) :
  Forall2 same_shape olds fresh →
  Forall (λ new, pin_connections new = []) fresh →
  Forall2 rewired olds (zip_with (met accepts) fresh olds).
Proof.
  induction 1 as [|old new olds fresh Hs _ IH]; intros Hfresh; simpl;
    [constructor|].
  apply Forall_cons in Hfresh as [Hnew Hfresh].
  constructor; [|by apply IH].
  rewrite met_same_type; [by split|apply Hs|done].
Qed.

(** With distinct keys, the pin found by direction and name is the one at
    the same place. *)
Lemma find_rewired (olds news : list OScriptNodePin) old :
  Forall2 rewired olds news →
  NoDup (map pin_key olds) →
  old ∈ olds →
  ∃ j new, list_find (same_direction_and_name old) news = Some (j, new)
           ∧ olds !! j = Some old
           ∧ pin_connections new = pin_connections old.
Proof.
  intros HF Hnd Hin. apply list_elem_of_lookup in Hin as [i Hi].
  destruct (Forall2_lookup_l _ _ _ _ _ HF Hi) as (new & Hnew & Hs & Hc).
  exists i, new. split; [|done].
  apply list_find_Some. split; [done|]. split; [split; apply Hs|].
  intros j y Hy Hj [Hyd Hyn].
  destruct (Forall2_lookup_r _ _ _ _ _ HF Hy) as (old' & Hold' & Hs' & _).
  assert (Hkey : map pin_key olds !! j = map pin_key olds !! i).
  { rewrite !list_lookup_fmap, Hold', Hi. simpl. f_equal. unfold pin_key.
    destruct Hs' as (Hd' & Hn' & _). by rewrite <- Hd', <- Hn', Hyd, Hyn. }
  assert (j = i); [|lia].
  eapply NoDup_lookup; [exact Hnd| |].
  - by rewrite list_lookup_fmap, Hold'.
  - rewrite <- Hkey. by rewrite list_lookup_fmap, Hold'.
Qed.
End RewireFacts.

(** C4.  When the pins that [allocate_default_pins] derives have, place by
    place, the directions, names and types of the current pins (pins being
    told apart by direction and name), [reconstruct_node] keeps every
    connection: each rebuilt pin has the direction, name, type and exactly
    the connections of the old pin in its place, and it is the pin that a
    search by the old pin's direction and name finds. *)
Theorem reconstruct_node_keeps_connections
    (accepts : OScriptNodePin → OScriptNodePin → bool)
    (allocate_default_pins : OScriptNode → OScriptNode) (self : OScriptNode) :
  let fresh :=
    _pins (reallocate_pins_during_reconstruction allocate_default_pins
             (_pins self) (with_reconstructing true self)) in
  let rebuilt := _pins (reconstruct_node accepts allocate_default_pins self) in
  Forall2 same_shape (_pins self) fresh →
  Forall (λ new, pin_connections new = []) fresh →
  NoDup (map pin_key (_pins self)) →
  Forall2 rewired (_pins self) rebuilt
  ∧ ∀ old, old ∈ _pins self →
      ∃ j new, list_find (same_direction_and_name old) rebuilt = Some (j, new)
               ∧ _pins self !! j = Some old
               ∧ pin_connections new = pin_connections old.
Proof.
  intros fresh rebuilt Hshape Hfresh Hnd.
  assert (Hre : rebuilt = zip_with (met accepts) fresh (_pins self)).
  { unfold rebuilt, reconstruct_node, post_reconstruct_node. simpl.
    apply rewire_old_pins_to_new_pins_zip; [|done].
    by apply same_shape_direction_and_name. }
  assert (HF : Forall2 rewired (_pins self) rebuilt).
  { rewrite Hre. by apply zip_rewired. }
  split; [done|]. intros old Hin. by apply find_rewired.
Qed.

Lemma reconstruct_node_keeps_connections_witness :
  Forall2 rewired (_pins (select_super example_select))
    (_pins (reconstruct_node (λ _ _, false) example_allocate
              (select_super example_select))).
Proof.
  pose proof (reconstruct_node_keeps_connections (λ _ _, false)
                example_allocate (select_super example_select)) as H.
  cbv zeta in H. apply H.
  - repeat constructor.
  - repeat constructor.
  - apply (bool_decide_unpack _). vm_compute. exact I.
Defined.

(** ** Changing the pin types of a select node *)

Section SelectFacts.
Variable to_type : Z → Z.
Variable accepts : OScriptNodePin → OScriptNodePin → bool.

Lemma select_allocate_default_pins_fresh (n : OScriptNode) (ty : Z) :
  _pins (select_super
    (OScriptNodeSelect_allocate_default_pins to_type
       {| select_super := with_pins [] n; _type := ty |}))
  = select_default_pins (_id n) (to_type ty).
Proof. reflexivity. Qed.

Lemma select_reconstruct_node_pins (self : OScriptNodeSelect) :
  _pins (select_super (OScriptNodeSelect_reconstruct_node to_type accepts self))
  = rewire_old_pins_to_new_pins accepts (_pins (select_super self))
      (select_default_pins (_id (select_super self)) (to_type (_type self))).
Proof. reflexivity. Qed.

Lemma select_pins_allocated_inv (self : OScriptNodeSelect) :
  select_pins_allocated to_type self →
  ∃ ca cb cp cr,
    _pins (select_super self)
    = zip_with set_connections [ca; cb; cp; cr]
        (select_default_pins (_id (select_super self)) (to_type (_type self))).
Proof.
  unfold select_pins_allocated. rewrite select_allocate_default_pins_fresh.
  unfold select_default_pins. intros H.
  repeat match goal with
  | H : Forall2 _ _ (_ :: _) |- _ =>
      apply Forall2_cons_inv_r in H as (? & ? & ? & H & ->)
  | H : Forall2 _ _ [] |- _ => apply Forall2_nil_inv_r in H as ->
  end.
  repeat match goal with
  | H : set_connections [] ?p = _ |- _ =>
      destruct p as [? ? ? ? ? ? ? ? ?]; simpl in H; injection H; clear H;
      intros; subst
  end.
  eexists _, _, _, _. reflexivity.
Qed.
End SelectFacts.

(** C9.  On a select node whose pins are the allocated ones,
    [change_pin_types(t)] succeeds and leaves the pins [a], [b], [pick_a],
    [result] in this order: [a], [b] and [result] have the type that
    [to_type] gives for [t], and [pick_a] is the very pin it was, of type
    [BOOL] with default value [false]. *)
Theorem select_change_pin_types_frame
    (to_type : Z → Z) (accepts : OScriptNodePin → OScriptNodePin → bool)
    (p_type : Z) (self : OScriptNodeSelect) :
  select_pins_allocated to_type self →
  ∃ self' pick_a,
    OScriptNodeSelect_change_pin_types to_type accepts p_type self = Some self'
    ∧ _type self' = p_type
    ∧ map pin_name (_pins (select_super self')) = ["a"; "b"; "pick_a"; "result"]
    ∧ map pin_direction (_pins (select_super self'))
      = [PD_Input; PD_Input; PD_Input; PD_Output]
    ∧ map pin_type (_pins (select_super self'))
      = [to_type p_type; to_type p_type; VariantType.BOOL; to_type p_type]
    ∧ _pins (select_super self) !! 2%nat = Some pick_a
    ∧ _pins (select_super self') !! 2%nat = Some pick_a
    ∧ pin_name pick_a = "pick_a"
    ∧ pin_type pick_a = VariantType.BOOL
    ∧ pin_default_value pick_a = V_BOOL false.
Proof.
  intros H. apply select_pins_allocated_inv in H as (ca & cb & cp & cr & Hpins).
  destruct self as [[ini id pins rec em] ty]. simpl in Hpins. subst pins.
  unfold OScriptNodeSelect_change_pin_types. cbn [select_super].
  do 3 (match goal with |- context [find_pin ?name ?d ?n] =>
          let r := eval vm_compute in (find_pin name d n) in
          replace (find_pin name d n) with r by (vm_compute; reflexivity)
        end;
        cbn [on_pin mbind option_bind _pins lookup list_lookup insert
             list_insert with_pins _initialized _id _reconstructing _emitted]).
  exists (OScriptNodeSelect_reconstruct_node to_type accepts
            {| select_super :=
                 {| _initialized := ini; _id := id;
                    _pins := zip_with set_connections [ca; cb; cp; cr]
                               (select_default_pins id p_type);
                    _reconstructing := rec; _emitted := em |};
               _type := p_type |}),
         (set_connections cp
            (mkPin (Some id) PD_Input 2 "pick_a" VariantType.BOOL [DATA]
               (V_BOOL false) "" [])).
  split; [reflexivity|]. split; [reflexivity|].
  rewrite select_reconstruct_node_pins.
  cbn [select_super _type _pins _id].
  rewrite rewire_old_pins_to_new_pins_zip.
  - cbn [zip_with select_default_pins].
    rewrite (met_same_type accepts (mkPin _ _ _ "pick_a" _ _ _ _ _)) by reflexivity.
    cbn [map]. rewrite !met_name, !met_direction, !met_type.
    repeat split; reflexivity.
  - repeat constructor.
  - apply (bool_decide_unpack _). vm_compute. exact I.
Qed.

Lemma select_change_pin_types_frame_witness :
  ∃ self' pick_a,
    OScriptNodeSelect_change_pin_types (λ t, t) (λ _ _, false)
      VariantType.STRING example_select = Some self'
    ∧ map pin_type (_pins (select_super self'))
      = [VariantType.STRING; VariantType.STRING; VariantType.BOOL;
         VariantType.STRING]
    ∧ _pins (select_super example_select) !! 2%nat = Some pick_a
    ∧ _pins (select_super self') !! 2%nat = Some pick_a.
Proof.
  destruct (select_change_pin_types_frame (λ t, t) (λ _ _, false)
              VariantType.STRING example_select)
    as (self' & pick_a & H1 & _ & _ & _ & H2 & H3 & H4 & _).
  - repeat constructor.
  - exists self', pick_a. repeat split; assumption.
Defined.

(** * Further properties of the two nodes *)

(** ** Properties of the nodes as engine objects *)


(** X2.  The properties a type-cast node declares are the ones its
    accessors know: [_get] answers a name exactly when
    [_get_property_list] lists it, the value read has the declared type,
    and [_set] on any other name answers false and changes nothing.
    Entries already in the list are kept. *)
Theorem type_cast_declared_properties
    (self : OScriptNodeTypeCast) (p_name : StringName) (r_list : list PropertyInfo) :
  (is_Some (OScriptNodeTypeCast__get p_name self)
   ↔ p_name ∈ map info_name (OScriptNodeTypeCast__get_property_list []))
  ∧ (∀ v, OScriptNodeTypeCast__get p_name self = Some v →
          ∃ info, info ∈ OScriptNodeTypeCast__get_property_list []
                  ∧ info_name info = p_name ∧ info_type info = get_type v)
  ∧ (p_name ∉ map info_name (OScriptNodeTypeCast__get_property_list []) →
     ∀ p_value, OScriptNodeTypeCast__set p_name p_value self = Some (false, self))
  ∧ r_list `prefix_of` OScriptNodeTypeCast__get_property_list r_list.
Proof.
  unfold OScriptNodeTypeCast__get, OScriptNodeTypeCast__set,
    OScriptNodeTypeCast__get_property_list. simpl.
  rewrite list_elem_of_singleton.
  destruct (decide (p_name = "type")) as [->|Hne].
  - split; [by split; [|eexists]|]. split.
    + intros v [= <-]. eexists. split; [apply list_elem_of_singleton|]; done.
    + split; [done|]. by apply prefix_app_r.
  - split; [split; [by intros [? ?]|done]|]. split; [done|].
    split; [done|]. by apply prefix_app_r.
Qed.

(** X3.  The same agreement on a select node: "type" is the one declared
    property, it reads as an integer, and [_set] on any other name answers
    false and changes nothing. *)
Theorem select_declared_properties
    (types : string) (self : OScriptNodeSelect) (p_name : StringName)
    (r_list : list PropertyInfo) :
  (is_Some (OScriptNodeSelect__get p_name self)
   ↔ p_name ∈ map info_name (OScriptNodeSelect__get_property_list types []))
  ∧ (∀ v, OScriptNodeSelect__get p_name self = Some v →
          ∃ info, info ∈ OScriptNodeSelect__get_property_list types []
                  ∧ info_name info = p_name ∧ info_type info = get_type v)
  ∧ (p_name ∉ map info_name (OScriptNodeSelect__get_property_list types []) →
     ∀ p_value, OScriptNodeSelect__set p_name p_value self = Some (false, self))
  ∧ r_list `prefix_of` OScriptNodeSelect__get_property_list types r_list.
Proof.
  unfold OScriptNodeSelect__get, OScriptNodeSelect__set,
    OScriptNodeSelect__get_property_list. simpl.
  rewrite list_elem_of_singleton.
  destruct (decide (p_name = "type")) as [->|Hne].
  - split; [by split; [|eexists]|]. split.
    + intros v [= <-]. eexists. split; [apply list_elem_of_singleton|]; done.
    + split; [done|]. by apply prefix_app_r.
  - split; [split; [by intros [? ?]|done]|]. split; [done|].
    split; [done|]. by apply prefix_app_r.
Qed.

(** ** Properties of the step functions *)

Lemma written_frame p_context v : context_frame p_context (written p_context v).
Proof.
  unfold context_frame, written. simpl. split; [done|].
  split; [apply length_insert|]. intros i Hi. by apply list_lookup_insert_ne.
Qed.

Lemma context_frame_refl p_context : context_frame p_context p_context.
Proof. by repeat split. Qed.

Lemma written_twice p_context v :
  written (written p_context v) v = written p_context v.
Proof. unfold written. simpl. by rewrite list_insert_insert_eq. Qed.

Lemma set_output_written p_context v p_context' :
  set_output p_context 0 v = Some p_context' →
  p_context' = written p_context v ∧ is_Some (_outputs p_context !! 0%nat).
Proof.
  unfold set_output. destruct (_outputs p_context !! 0%nat) eqn:E; [|done].
  intros [= <-]. by split; [|eexists].
Qed.

Lemma set_output_again p_context v :
  is_Some (_outputs p_context !! 0%nat) →
  set_output (written p_context v) 0 v = Some (written p_context v).
Proof.
  intros Hout. unfold set_output.
  assert (Hlt : (0 < length (_outputs p_context))%nat)
    by (by apply lookup_lt_is_Some).
  unfold written. simpl. rewrite list_lookup_insert_eq by done.
  by rewrite list_insert_insert_eq.
Qed.

(** The two ways a type-cast step can end. *)
Lemma cast_step_cases db p_nodes self p_context r p_context' :
  OScriptNodeTypeCastInstance_step db p_nodes self p_context = Some (r, p_context') →
  (r = 0
   ∧ ∃ object,
       get_input p_context 0 = Some (V_OBJECT (Some object))
       ∧ ClassDB.is_parent_class db (get_class object) (_target_class self) = true
       ∧ is_Some (_outputs p_context !! 0%nat)
       ∧ p_context' = written p_context (V_OBJECT (Some object)))
  ∨ (r = 1 ∧ p_context' = p_context).
Proof.
  unfold OScriptNodeTypeCastInstance_step.
  destruct (get_input p_context 0) as [input|] eqn:Hin; [|done]. simpl.
  destruct input as [| | | |[object|]]; simpl;
    try (intros [= <- <-]; by right).
  destruct (ClassDB.is_parent_class _ _ _) eqn:E;
    [|intros [= <- <-]; by right].
  destruct (set_output p_context 0 _) as [c|] eqn:Hset; [|done].
  simpl. intros [= <- <-]. left. split; [done|]. exists object.
  apply set_output_written in Hset as [-> ?]. by repeat split.
Qed.

(** The way a select step ends. *)
Lemma select_step_cases self p_context r p_context' :
  OScriptNodeSelectInstance_step self p_context = Some (r, p_context') →
  r = 0
  ∧ ∃ pick_a v,
      get_input p_context 2 = Some pick_a
      ∧ get_input p_context (if booleanize pick_a then 0 else 1)%nat = Some v
      ∧ is_Some (_outputs p_context !! 0%nat)
      ∧ p_context' = written p_context v.
Proof.
  unfold OScriptNodeSelectInstance_step.
  destruct (get_input p_context 2) as [pick_a|] eqn:Hp; [|done]. simpl.
  destruct (booleanize pick_a) eqn:Hb.
  - destruct (get_input p_context 0) as [a|] eqn:Ha; [|done]. simpl.
    destruct (set_output p_context 0 a) as [c|] eqn:Hset; [|done]. simpl.
    intros [= <- <-]. split; [done|]. exists pick_a, a. rewrite Hb.
    apply set_output_written in Hset as [-> ?]. by repeat split.
  - destruct (get_input p_context 1) as [b|] eqn:Hb'; [|done]. simpl.
    destruct (set_output p_context 0 b) as [c|] eqn:Hset; [|done]. simpl.
    intros [= <- <-]. split; [done|]. exists pick_a, b. rewrite Hb.
    apply set_output_written in Hset as [-> ?]. by repeat split.
Qed.

(** X4.  The verdict of a type-cast step can be trusted both ways: when it
    returns 0, input 0 is a non-null object whose class is the frozen
    target class or a descendant of it, and output 0 now holds that very
    value; the only other result is 1, with the context as it was and no
    such object at input 0. *)
Theorem type_cast_step_verdict
    (db : ClassDB.classes) (p_nodes : gmap Z OScriptNodeTypeCast)
    (self : OScriptNodeTypeCastInstance)
    (p_context p_context' : OScriptExecutionContext) (r : Z) :
  OScriptNodeTypeCastInstance_step db p_nodes self p_context = Some (r, p_context') →
  (r = 0
   ∧ ∃ object,
       get_input p_context 0 = Some (V_OBJECT (Some object))
       ∧ ClassDB.descendant_or_self db (get_class object) (_target_class self)
       ∧ _outputs p_context' !! 0%nat = Some (V_OBJECT (Some object)))
  ∨ (r = 1
     ∧ p_context' = p_context
     ∧ ∀ object,
         get_input p_context 0 = Some (V_OBJECT (Some object)) →
         ¬ ClassDB.descendant_or_self db (get_class object) (_target_class self)).
Proof.
  intros Hstep.
  destruct (cast_step_cases _ _ _ _ _ _ Hstep)
    as [(-> & object & Hin & Hp & Hout & ->)|[-> ->]].
  - left. split; [done|]. exists object. split; [done|].
    split; [by apply is_parent_class_spec|].
    unfold written. simpl. apply list_lookup_insert_eq.
    by apply lookup_lt_is_Some.
  - right. split; [done|]. split; [done|]. intros object Hin Hd.
    apply is_parent_class_spec in Hd.
    unfold OScriptNodeTypeCastInstance_step in Hstep.
    rewrite Hin in Hstep. simpl in Hstep. rewrite Hd in Hstep.
    destruct (set_output p_context 0 _); simpl in Hstep; congruence.
Qed.

Lemma type_cast_step_verdict_witness :
  (0 = 0
   ∧ ∃ object,
       get_input (example_context (example_object 42 "Sprite2D")) 0
       = Some (V_OBJECT (Some object))
       ∧ ClassDB.descendant_or_self example_classes (get_class object) "Node"
       ∧ [example_object 42 "Sprite2D"] !! 0%nat = Some (V_OBJECT (Some object)))
  ∨ (0 = 1
     ∧ {| _inputs := [example_object 42 "Sprite2D"];
          _outputs := [example_object 42 "Sprite2D"] |}
       = example_context (example_object 42 "Sprite2D")
     ∧ ∀ object,
         get_input (example_context (example_object 42 "Sprite2D")) 0
         = Some (V_OBJECT (Some object)) →
         ¬ ClassDB.descendant_or_self example_classes (get_class object) "Node").
Proof.
  apply (type_cast_step_verdict example_classes ∅ (example_cast_to "Node")
           (example_context (example_object 42 "Sprite2D"))
           {| _inputs := [example_object 42 "Sprite2D"];
              _outputs := [example_object 42 "Sprite2D"] |} 0).
  reflexivity.
Defined.

(** X5.  Neither step touches anything but output slot 0: whenever a
    type-cast or a select step returns, the inputs, the number of output
    slots and every output slot other than 0 are what they were. *)
Theorem steps_write_output_0_only :
  (∀ db p_nodes self p_context r p_context',
     OScriptNodeTypeCastInstance_step db p_nodes self p_context = Some (r, p_context') →
     context_frame p_context p_context')
  ∧ (∀ self p_context r p_context',
       OScriptNodeSelectInstance_step self p_context = Some (r, p_context') →
       context_frame p_context p_context').
Proof.
  split.
  - intros db p_nodes self p_context r p_context' Hstep.
    destruct (cast_step_cases _ _ _ _ _ _ Hstep)
      as [(_ & object & _ & _ & _ & ->)|[_ ->]].
    + apply written_frame.
    + apply context_frame_refl.
  - intros self p_context r p_context' Hstep.
    destruct (select_step_cases _ _ _ _ Hstep) as (_ & p & v & _ & _ & _ & ->).
    apply written_frame.
Qed.

(** X6.  Stepping again on the context a step has produced gives the same
    control index and the same context, for the type-cast and for the
    select instance. *)
Theorem steps_are_idempotent :
  (∀ db p_nodes self p_context r p_context',
     OScriptNodeTypeCastInstance_step db p_nodes self p_context = Some (r, p_context') →
     OScriptNodeTypeCastInstance_step db p_nodes self p_context' = Some (r, p_context'))
  ∧ (∀ self p_context r p_context',
       OScriptNodeSelectInstance_step self p_context = Some (r, p_context') →
       OScriptNodeSelectInstance_step self p_context' = Some (r, p_context')).
Proof.
  split.
  - intros db p_nodes self p_context r p_context' Hstep.
    destruct (cast_step_cases _ _ _ _ _ _ Hstep)
      as [(-> & object & Hin & Hp & Hout & ->)|[-> ->]]; [|done].
    unfold OScriptNodeTypeCastInstance_step.
    change (get_input (written p_context (V_OBJECT (Some object))) 0)
      with (get_input p_context 0).
    rewrite Hin. simpl. rewrite Hp. by rewrite set_output_again.
  - intros self p_context r p_context' Hstep.
    destruct (select_step_cases _ _ _ _ Hstep)
      as (-> & pick_a & v & Hp & Hv & Hout & ->).
    unfold OScriptNodeSelectInstance_step.
    change (get_input (written p_context v) 2) with (get_input p_context 2).
    rewrite Hp. simpl.
    destruct (booleanize pick_a).
    + change (get_input (written p_context v) 0) with (get_input p_context 0).
      rewrite Hv. simpl. by rewrite set_output_again.
    + change (get_input (written p_context v) 1) with (get_input p_context 1).
      rewrite Hv. simpl. by rewrite set_output_again.
Qed.

Lemma steps_write_output_0_only_witness :
  context_frame
    {| _inputs := [V_STRING "x"; V_STRING "y"; V_BOOL false];
       _outputs := [V_NIL; V_INT 7] |}
    {| _inputs := [V_STRING "x"; V_STRING "y"; V_BOOL false];
       _outputs := [V_STRING "y"; V_INT 7] |}.
Proof.
  apply (proj2 steps_write_output_0_only (mkSelectInstance 3)
           {| _inputs := [V_STRING "x"; V_STRING "y"; V_BOOL false];
              _outputs := [V_NIL; V_INT 7] |} 0).
  reflexivity.
Defined.

Lemma steps_are_idempotent_witness :
  OScriptNodeTypeCastInstance_step example_classes ∅ (example_cast_to "Node")
    {| _inputs := [example_object 42 "Sprite2D"];
       _outputs := [example_object 42 "Sprite2D"] |}
  = Some (0, {| _inputs := [example_object 42 "Sprite2D"];
                _outputs := [example_object 42 "Sprite2D"] |}).
Proof.
  apply (proj1 steps_are_idempotent example_classes ∅ (example_cast_to "Node")
           (example_context (example_object 42 "Sprite2D"))).
  reflexivity.
Defined.

(** ** From the configured type to the compiled instance *)

Lemma getptr_elem_of db c ci : ClassDB.getptr db c = Some ci → ci ∈ db.
Proof.
  unfold ClassDB.getptr. intros H.
  destruct (list_find _ db) as [[i x]|] eqn:E; [|done].
  injection H as <-. apply list_find_Some in E as (E & _).
  by apply list_elem_of_lookup_2 in E.
Qed.

Lemma descendant_of_empty_name db c :
  class_names_nonempty db → ¬ ClassDB.descendant_or_self db c "".
Proof.
  unfold class_names_nonempty, ClassDB.descendant_or_self. intros Hdb.
  destruct (ClassDB.getptr db c) as [ci|] eqn:E; [|tauto].
  rewrite Forall_forall in Hdb.
  specialize (Hdb ci (getptr_elem_of _ _ _ E)).
  rewrite (getptr_name _ _ _ E) in Hdb.
  rewrite elem_of_cons in Hdb. tauto.
Qed.

(** X7.  A type-cast node with no target type configured compiles to an
    instance that never casts: as no class has the empty name, its step
    returns 1 and writes nothing whatever input 0 holds, although the node
    is titled "Cast To Object". *)
Theorem type_cast_unconfigured_never_casts
    (db : ClassDB.classes) (p_nodes : gmap Z OScriptNodeTypeCast)
    (node : OScriptNodeTypeCast) (p_instance : Z)
    (p_context : OScriptExecutionContext) (input : Variant) :
  class_names_nonempty db →
  _target_type node = "" →
  get_input p_context 0 = Some input →
  OScriptNodeTypeCastInstance_step db p_nodes
    (OScriptNodeTypeCast_instantiate node p_instance) p_context
  = Some (1, p_context)
  ∧ OScriptNodeTypeCast_get_node_title node = "Cast To Object".
Proof.
  intros Hdb Hempty Hin. split.
  - apply (step_miss _ _ _ _ _ Hin). simpl. rewrite Hempty.
    intros (object & _ & Hd). by apply descendant_of_empty_name in Hd.
  - unfold OScriptNodeTypeCast_get_node_title,
      OScriptNodeTypeCast__get_target_type. by rewrite Hempty.
Qed.

Lemma type_cast_unconfigured_never_casts_witness :
  OScriptNodeTypeCastInstance_step example_classes ∅
    (OScriptNodeTypeCast_instantiate (example_cast_node "") 1)
    (example_context (example_object 42 "Object"))
  = Some (1, example_context (example_object 42 "Object"))
  ∧ OScriptNodeTypeCast_get_node_title (example_cast_node "") = "Cast To Object".
Proof.
  apply (type_cast_unconfigured_never_casts example_classes ∅
           (example_cast_node "") 1
           (example_context (example_object 42 "Object"))
           (example_object 42 "Object")).
  - apply (bool_decide_unpack _). vm_compute. exact I.
  - reflexivity.
  - reflexivity.
Defined.

Lemma default_if_empty_nonempty s d :
  d ≠ "" → StringUtils.default_if_empty s d ≠ "".
Proof. unfold StringUtils.default_if_empty. by destruct (decide (s = "")). Qed.

(** X8.  Every place where a type-cast node shows or resolves its type
    agrees on one name, which is the configured target type, or "Object"
    when none is configured, and is never empty: the icon, the title, the
    label of the [output] pin and [resolve_type_class] on the [yes] and
    [output] pins.  The tooltip therefore always takes its first form. *)
Theorem type_cast_shown_type_is_consistent (node : OScriptNodeTypeCast) :
  let shown := OScriptNodeTypeCast__get_target_type node in
  let pins :=
    _pins (cast_super (OScriptNodeTypeCast_allocate_default_pins
             {| cast_super := with_pins [] (cast_super node);
                _target_type := _target_type node |})) in
  shown ≠ ""
  ∧ (if decide (_target_type node = "") then shown = "Object"
     else shown = _target_type node)
  ∧ OScriptNodeTypeCast_get_icon node = shown
  ∧ OScriptNodeTypeCast_get_node_title node = "Cast To " +:+ shown
  ∧ OScriptNodeTypeCast_get_tooltip_text node
    = "Tries to access the object as a '" +:+ shown
        +:+ "', it may be an instance of."
  ∧ ∃ yes output,
      pins !! 2%nat = Some yes ∧ pin_name yes = "yes"
      ∧ pins !! 4%nat = Some output ∧ pin_name output = "output"
      ∧ pin_label output = "as " +:+ shown
      ∧ OScriptNodeTypeCast_resolve_type_class node yes = shown
      ∧ OScriptNodeTypeCast_resolve_type_class node output = shown.
Proof.
  intros shown pins.
  assert (Hne : shown ≠ "") by (by apply default_if_empty_nonempty).
  split; [done|]. split.
  { unfold shown, OScriptNodeTypeCast__get_target_type,
      StringUtils.default_if_empty. by destruct (decide (_target_type node = "")). }
  split; [reflexivity|]. split; [reflexivity|]. split.
  { unfold OScriptNodeTypeCast_get_tooltip_text. fold shown.
    by rewrite bool_decide_eq_false_2. }
  eexists _, _. split; [reflexivity|]. split; [reflexivity|].
  split; [reflexivity|]. by repeat split.
Qed.

(** X9.  [initialize] hands the class name of the init context to the
    node unless it is absent or empty, in which case the configured type
    stays; an instance compiled afterwards casts to exactly that class:
    its step returns 0 and writes the object when the object's class is
    that class or a descendant of it, and returns 1 otherwise. *)
Theorem type_cast_initialize_reaches_instance
    (db : ClassDB.classes) (p_nodes : gmap Z OScriptNodeTypeCast)
    (super_initialize : OScriptNodeInitContext → OScriptNode → OScriptNode)
    (p_init : OScriptNodeInitContext) (node : OScriptNodeTypeCast)
    (p_instance : Z) (p_context : OScriptExecutionContext) (object : Object) :
  get_input p_context 0 = Some (V_OBJECT (Some object)) →
  is_Some (_outputs p_context !! 0%nat) →
  let i :=
    OScriptNodeTypeCast_instantiate
      (OScriptNodeTypeCast_initialize super_initialize p_init node) p_instance in
  (∀ c, class_name p_init = Some c → c ≠ "" → _target_class i = c)
  ∧ (class_name p_init = None ∨ class_name p_init = Some "" →
     _target_class i = _target_type node)
  ∧ (ClassDB.descendant_or_self db (get_class object) (_target_class i) →
     OScriptNodeTypeCastInstance_step db p_nodes i p_context
     = Some (0, written p_context (V_OBJECT (Some object))))
  ∧ (¬ ClassDB.descendant_or_self db (get_class object) (_target_class i) →
     OScriptNodeTypeCastInstance_step db p_nodes i p_context
     = Some (1, p_context)).
Proof.
  intros Hin Hout i. split; [|split; [|split]].
  - intros c Hc Hne. unfold i, OScriptNodeTypeCast_initialize. simpl.
    rewrite Hc. by rewrite bool_decide_eq_false_2.
  - intros [Hc|Hc]; unfold i, OScriptNodeTypeCast_initialize; simpl;
      by rewrite Hc.
  - intros Hd. by apply step_hit.
  - intros Hd. apply (step_miss _ _ _ _ _ Hin).
    intros (o & [= <-] & Hd'). by apply Hd.
Qed.

Lemma type_cast_initialize_reaches_instance_witness :
  OScriptNodeTypeCastInstance_step example_classes ∅
    (OScriptNodeTypeCast_instantiate
       (OScriptNodeTypeCast_initialize (λ _ n, n)
          (mkInitContext None (Some "Node2D") None None) (example_cast_node ""))
       1)
    (example_context (example_object 42 "Sprite2D"))
  = Some (0, written (example_context (example_object 42 "Sprite2D"))
               (V_OBJECT (Some (mkObject 42 "Sprite2D")))).
Proof.
  assert (Hin : get_input (example_context (example_object 42 "Sprite2D")) 0
                = Some (V_OBJECT (Some (mkObject 42 "Sprite2D"))))
    by reflexivity.
  assert (Hout : is_Some (_outputs (example_context (example_object 42 "Sprite2D"))
                            !! 0%nat))
    by (exists V_NIL; reflexivity).
  destruct (type_cast_initialize_reaches_instance example_classes ∅ (λ _ n, n)
              (mkInitContext None (Some "Node2D") None None)
              (example_cast_node "") 1
              (example_context (example_object 42 "Sprite2D"))
              (mkObject 42 "Sprite2D") Hin Hout) as (_ & _ & H & _).
  apply H. apply (bool_decide_unpack _). vm_compute. exact I.
Defined.

(** X10.  After [_set("type", t)] an instance compiled from the node casts
    to [t]: its step returns 0 and writes the object exactly when the
    object's class is [t] or a descendant of [t], and returns 1 with the
    context untouched otherwise. *)
Theorem type_cast_set_type_reaches_new_instance
    (db : ClassDB.classes) (p_nodes : gmap Z OScriptNodeTypeCast)
    (node : OScriptNodeTypeCast) (t : string) (p_instance : Z)
    (p_context : OScriptExecutionContext) (object : Object) :
  get_input p_context 0 = Some (V_OBJECT (Some object)) →
  is_Some (_outputs p_context !! 0%nat) →
  ∃ node',
    OScriptNodeTypeCast__set "type" (V_STRING t) node = Some (true, node')
    ∧ (ClassDB.descendant_or_self db (get_class object) t →
       OScriptNodeTypeCastInstance_step db p_nodes
         (OScriptNodeTypeCast_instantiate node' p_instance) p_context
       = Some (0, written p_context (V_OBJECT (Some object))))
    ∧ (¬ ClassDB.descendant_or_self db (get_class object) t →
       OScriptNodeTypeCastInstance_step db p_nodes
         (OScriptNodeTypeCast_instantiate node' p_instance) p_context
       = Some (1, p_context)).
Proof.
  intros Hin Hout. eexists. split; [reflexivity|]. split.
  - intros Hd. by apply step_hit.
  - intros Hd. apply (step_miss _ _ _ _ _ Hin).
    intros (o & [= <-] & Hd'). by apply Hd.
Qed.

Lemma type_cast_set_type_reaches_new_instance_witness :
  ∃ node',
    OScriptNodeTypeCast__set "type" (V_STRING "Resource") (example_cast_node "Node")
    = Some (true, node')
    ∧ OScriptNodeTypeCastInstance_step example_classes ∅
        (OScriptNodeTypeCast_instantiate node' 1)
        (example_context (example_object 42 "Sprite2D"))
      = Some (1, example_context (example_object 42 "Sprite2D")).
Proof.
  assert (Hin : get_input (example_context (example_object 42 "Sprite2D")) 0
                = Some (V_OBJECT (Some (mkObject 42 "Sprite2D"))))
    by reflexivity.
  assert (Hout : is_Some (_outputs (example_context (example_object 42 "Sprite2D"))
                            !! 0%nat))
    by (exists V_NIL; reflexivity).
  destruct (type_cast_set_type_reaches_new_instance example_classes ∅
              (example_cast_node "Node") "Resource" 1
              (example_context (example_object 42 "Sprite2D"))
              (mkObject 42 "Sprite2D") Hin Hout) as (node' & Hset & _ & H).
  exists node'. split; [exact Hset|].
  apply H. apply (bool_decide_unpack _). vm_compute. exact I.
Defined.

(** ** The pin types a select node offers *)

Section PossiblePinTypesFacts.
Variable to_type : Z → Z.
Variable VARIANT_MAX : Z.

Lemma get_possible_pin_types_loop_spec (fuel : nat) :
  ∀ i types,
    VARIANT_MAX - i ≤ Z.of_nat fuel →
    get_possible_pin_types_loop to_type VARIANT_MAX fuel i types
    = types ++ (to_type <$> seqZ i (Z.min VARIANT_MAX VariantType.RID - i)).
Proof.
  induction fuel as [|fuel IH]; intros i types Hfuel;
    cbn [get_possible_pin_types_loop].
  - rewrite seqZ_nil by (unfold VariantType.RID; lia). by rewrite app_nil_r.
  - destruct (decide (i < VARIANT_MAX)) as [Hlt|Hge].
    + destruct (decide (i >= VariantType.RID)) as [Hbreak|Hgo].
      * rewrite seqZ_nil by (unfold VariantType.RID in *; lia).
        by rewrite app_nil_r.
      * assert (Hf : VARIANT_MAX - (i + 1) ≤ Z.of_nat fuel) by (clear -Hfuel; lia).
        rewrite (IH _ _ Hf).
        rewrite (seqZ_cons i) by (unfold VariantType.RID in *; lia).
        rewrite fmap_cons, <- app_assoc. simpl.
        replace (Z.succ i) with (i + 1) by lia.
        replace (Z.pred (VARIANT_MAX `min` VariantType.RID - i))
          with (VARIANT_MAX `min` VariantType.RID - (i + 1)) by lia.
        reflexivity.
    + rewrite seqZ_nil by (unfold VariantType.RID in *; lia).
      by rewrite app_nil_r.
Qed.
End PossiblePinTypesFacts.

(** X11.  [get_possible_pin_types] offers the types numbered from 1 up to,
    but not including, [RID] (or [VARIANT_MAX], should that be smaller), in
    this order: the "any" type 0 is never offered, nor is [RID], [OBJECT]
    or anything above.  With the engine's [VARIANT_MAX], which exceeds
    [RID], that is 22 types. *)
Theorem select_possible_pin_types (to_type : Z → Z) (VARIANT_MAX : Z) :
  OScriptNodeSelect_get_possible_pin_types to_type VARIANT_MAX
  = to_type <$> seqZ 1 (Z.min VARIANT_MAX VariantType.RID - 1)
  ∧ (∀ t, t ∈ OScriptNodeSelect_get_possible_pin_types to_type VARIANT_MAX
          ↔ ∃ i, 1 ≤ i < VariantType.RID ∧ i < VARIANT_MAX ∧ t = to_type i)
  ∧ (VariantType.RID ≤ VARIANT_MAX →
     length (OScriptNodeSelect_get_possible_pin_types to_type VARIANT_MAX) = 22%nat).
Proof.
  assert (Heq : OScriptNodeSelect_get_possible_pin_types to_type VARIANT_MAX
                = to_type <$> seqZ 1 (Z.min VARIANT_MAX VariantType.RID - 1)).
  { unfold OScriptNodeSelect_get_possible_pin_types.
    rewrite get_possible_pin_types_loop_spec by lia. reflexivity. }
  split; [exact Heq|]. rewrite Heq. split.
  - intros t. rewrite list_elem_of_fmap. split.
    + intros (i & -> & Hi). apply elem_of_seqZ in Hi. exists i.
      unfold VariantType.RID in *. repeat split; lia.
    + intros (i & Hi & Hmax & ->). exists i. split; [done|].
      apply elem_of_seqZ. unfold VariantType.RID in *. lia.
  - intros Hmax. rewrite length_fmap, length_seqZ.
    unfold VariantType.RID in *. rewrite Z.min_r by lia. reflexivity.
Qed.

Lemma select_possible_pin_types_witness :
  length (OScriptNodeSelect_get_possible_pin_types (λ t, t) 38) = 22%nat.
Proof.
  destruct (select_possible_pin_types (λ t, t) 38) as (_ & _ & H).
  apply H. unfold VariantType.RID. lia.
Defined.

(** ** The stored type of a select node and its pins *)

(** X12.  The stored "type" property counts the variant types without the
    "any" type: after [_set("type", v)], [allocate_default_pins] on the
    cleared node creates [a], [b] and [result] with the type numbered
    [v + 1], and [pick_a] as a [BOOL] pin with default [false]. *)
Theorem select_stored_type_selects_pin_type
    (to_type : Z → Z) (v : Z) (self : OScriptNodeSelect) :
  INT_MIN ≤ v < INT_MAX →
  ∃ self',
    OScriptNodeSelect__set "type" (V_INT v) self = Some (true, self')
    ∧ _pins (select_super
        (OScriptNodeSelect_allocate_default_pins to_type
           {| select_super := with_pins [] (select_super self');
              _type := _type self' |}))
      = select_default_pins (_id (select_super self)) (to_type (v + 1)).
Proof.
  intros Hv. eexists. split; [reflexivity|].
  rewrite select_allocate_default_pins_fresh. simpl.
  assert (H0 : wrap_int v = v)
    by (apply wrap_int_id; unfold INT_MIN, INT_MAX in *; lia).
  assert (H1 : wrap_int (v + 1) = v + 1)
    by (apply wrap_int_id; unfold INT_MIN, INT_MAX in *; lia).
  by rewrite H0, H1.
Qed.

Lemma select_stored_type_selects_pin_type_witness :
  ∃ self',
    OScriptNodeSelect__set "type" (V_INT 3) example_select = Some (true, self')
    ∧ _pins (select_super
        (OScriptNodeSelect_allocate_default_pins (λ t, t)
           {| select_super := with_pins [] (select_super self');
              _type := _type self' |}))
      = select_default_pins 3 4.
Proof.
  apply (select_stored_type_selects_pin_type (λ t, t) 3 example_select).
  unfold INT_MIN, INT_MAX. lia.
Defined.

Section ChangePinTypesFacts.
Variable to_type : Z → Z.
Variable accepts : OScriptNodePin → OScriptNodePin → bool.

(** On a node with its allocated pins the three pin lookups of
    [change_pin_types] succeed and the node goes into reconstruction with
    [a], [b] and [result] already retyped. *)
Lemma change_pin_types_allocated p_type ini id rec em ty ca cb cp cr :
  OScriptNodeSelect_change_pin_types to_type accepts p_type
    {| select_super :=
         {| _initialized := ini; _id := id;
            _pins := zip_with set_connections [ca; cb; cp; cr]
                       (select_default_pins id (to_type ty));
            _reconstructing := rec; _emitted := em |};
       _type := ty |}
  = Some (OScriptNodeSelect_reconstruct_node to_type accepts
            {| select_super :=
                 {| _initialized := ini; _id := id;
                    _pins := zip_with set_connections [ca; cb; cp; cr]
                               (select_default_pins id p_type);
                    _reconstructing := rec; _emitted := em |};
               _type := p_type |}).
Proof.
  unfold OScriptNodeSelect_change_pin_types.
  cbn [select_super zip_with select_default_pins].
  do 3 (match goal with |- context [find_pin ?name ?d ?n] =>
          let r := eval vm_compute in (find_pin name d n) in
          replace (find_pin name d n) with r by (vm_compute; reflexivity)
        end;
        cbn [on_pin mbind option_bind _pins lookup list_lookup insert
             list_insert with_pins _initialized _id _reconstructing _emitted]).
  reflexivity.
Qed.

Lemma retyped_pins_rewired id p_type ca cb cp cr :
  rewire_old_pins_to_new_pins accepts
    (zip_with set_connections [ca; cb; cp; cr] (select_default_pins id p_type))
    (select_default_pins id (to_type p_type))
  = zip_with (met accepts) (select_default_pins id (to_type p_type))
      (zip_with set_connections [ca; cb; cp; cr] (select_default_pins id p_type)).
Proof.
  apply rewire_old_pins_to_new_pins_zip.
  - repeat constructor.
  - apply (bool_decide_unpack _). vm_compute. exact I.
Qed.
End ChangePinTypesFacts.

(** X13.  [change_pin_types(t)] and the "type" property agree on the
    offset: on a select node with its allocated pins, after
    [change_pin_types(t)] the property reads [t - 1], and writing [t - 1]
    to the property stores the same [_type] as [change_pin_types(t)]
    does. *)
Theorem select_change_pin_types_matches_property
    (to_type : Z → Z) (accepts : OScriptNodePin → OScriptNodePin → bool)
    (p_type : Z) (self : OScriptNodeSelect) :
  select_pins_allocated to_type self →
  INT_MIN < p_type ≤ INT_MAX →
  ∃ self' self'',
    OScriptNodeSelect_change_pin_types to_type accepts p_type self = Some self'
    ∧ OScriptNodeSelect__get "type" self' = Some (V_INT (p_type - 1))
    ∧ OScriptNodeSelect__set "type" (V_INT (p_type - 1)) self = Some (true, self'')
    ∧ _type self'' = _type self'.
Proof.
  intros H Ht.
  apply select_pins_allocated_inv in H as (ca & cb & cp & cr & Hpins).
  destruct self as [[ini id pins rec em] ty].
  cbn [select_super _pins _id _type] in Hpins. subst pins.
  rewrite change_pin_types_allocated.
  eexists _, _. split; [reflexivity|].
  assert (H0 : wrap_int (p_type - 1) = p_type - 1)
    by (apply wrap_int_id; unfold INT_MIN, INT_MAX in *; lia).
  assert (H1 : wrap_int p_type = p_type)
    by (apply wrap_int_id; unfold INT_MIN, INT_MAX in *; lia).
  unfold OScriptNodeSelect__get, OScriptNodeSelect__set. simpl.
  rewrite H0. replace (p_type - 1 + 1) with p_type by lia. rewrite H1.
  by repeat split.
Qed.

Lemma select_change_pin_types_matches_property_witness :
  ∃ self' self'',
    OScriptNodeSelect_change_pin_types (λ t, t) (λ _ _, false)
      VariantType.STRING example_select = Some self'
    ∧ OScriptNodeSelect__get "type" self' = Some (V_INT (VariantType.STRING - 1))
    ∧ OScriptNodeSelect__set "type" (V_INT (VariantType.STRING - 1)) example_select
      = Some (true, self'')
    ∧ _type self'' = _type self'.
Proof.
  apply (select_change_pin_types_matches_property (λ t, t) (λ _ _, false)
           VariantType.STRING example_select).
  - repeat constructor.
  - unfold INT_MIN, INT_MAX, VariantType.STRING. lia.
Defined.

(** X14.  [change_pin_types] retypes the old pins before it reconstructs
    the node, so that old and new pins meet with equal types: when
    [to_type] maps the new type to itself, every pin of a select node with
    its allocated pins keeps its direction, its name and exactly its
    connections, and [a], [b] and [result] now have the new type. *)
Theorem select_change_pin_types_keeps_connections
    (to_type : Z → Z) (accepts : OScriptNodePin → OScriptNodePin → bool)
    (p_type : Z) (self : OScriptNodeSelect) :
  select_pins_allocated to_type self →
  to_type p_type = p_type →
  ∃ self',
    OScriptNodeSelect_change_pin_types to_type accepts p_type self = Some self'
    ∧ map pin_connections (_pins (select_super self'))
      = map pin_connections (_pins (select_super self))
    ∧ map pin_key (_pins (select_super self'))
      = map pin_key (_pins (select_super self))
    ∧ map pin_type (_pins (select_super self'))
      = [p_type; p_type; VariantType.BOOL; p_type].
Proof.
  intros H Hcast.
  apply select_pins_allocated_inv in H as (ca & cb & cp & cr & Hpins).
  destruct self as [[ini id pins rec em] ty].
  cbn [select_super _pins _id _type] in Hpins. subst pins.
  rewrite change_pin_types_allocated.
  eexists. split; [reflexivity|].
  rewrite select_reconstruct_node_pins. cbn [select_super _type _pins _id].
  rewrite retyped_pins_rewired, Hcast.
  cbn [zip_with select_default_pins].
  rewrite !met_same_type by reflexivity.
  by repeat split.
Qed.

Lemma select_change_pin_types_keeps_connections_witness :
  ∃ self',
    OScriptNodeSelect_change_pin_types (λ t, t) (λ _ _, false)
      VariantType.STRING example_select = Some self'
    ∧ map pin_connections (_pins (select_super self'))
      = map pin_connections (_pins (select_super example_select))
    ∧ map pin_key (_pins (select_super self'))
      = map pin_key (_pins (select_super example_select))
    ∧ map pin_type (_pins (select_super self'))
      = [VariantType.STRING; VariantType.STRING; VariantType.BOOL;
         VariantType.STRING].
Proof.
  apply (select_change_pin_types_keeps_connections (λ t, t) (λ _ _, false)
           VariantType.STRING example_select).
  - repeat constructor.
  - reflexivity.
Defined.

(** ** The pins that allocation creates *)

Lemma alter_last {A} (f : A → A) (l : list A) (x : A) :
  alter f (length l) (l ++ [x]) = l ++ [f x].
Proof.
  replace (length l) with (length l + 0)%nat by lia.
  by rewrite alter_app_r.
Qed.

Lemma count_direction_snoc d pins p :
  count_direction d (pins ++ [p])
  = if decide (pin_direction p = d) then S (count_direction d pins)
    else count_direction d pins.
Proof.
  unfold count_direction. rewrite filter_app, length_app.
  rewrite filter_cons, filter_nil.
  destruct (decide (pin_direction p = d)); simpl; lia.
Qed.

Lemma cast_allocate_default_pins_appends (n : OScriptNode) (t : string) :
  _pins (cast_super (OScriptNodeTypeCast_allocate_default_pins
                       {| cast_super := n; _target_type := t |}))
  = _pins n ++ cast_default_pins (_id n)
                 (count_direction PD_Input (_pins n))
                 (count_direction PD_Output (_pins n)) t.
Proof.
  destruct n as [ini id pins rec em].
  unfold OScriptNodeTypeCast_allocate_default_pins, create_pin, deref_pin.
  cbn [cast_super _target_type _pins _id with_pins].
  rewrite !alter_last. rewrite !count_direction_snoc.
  cbn [set_flags set_label pin_direction pin_owning_node pin_index pin_name
       pin_type pin_flags pin_default_value pin_label pin_connections].
  repeat first [rewrite decide_True by done | rewrite decide_False by done].
  rewrite <- !app_assoc. reflexivity.
Qed.

Lemma select_allocate_default_pins_appends (to_type : Z → Z) (n : OScriptNode)
    (ty : Z) :
  _pins (select_super (OScriptNodeSelect_allocate_default_pins to_type
                         {| select_super := n; _type := ty |}))
  = _pins n ++ select_pins_after (_id n)
                 (count_direction PD_Input (_pins n))
                 (count_direction PD_Output (_pins n)) (to_type ty).
Proof.
  destruct n as [ini id pins rec em].
  unfold OScriptNodeSelect_allocate_default_pins,
    OScriptNode_allocate_default_pins, create_pin.
  cbn [select_super _type _pins _id with_pins].
  rewrite !count_direction_snoc.
  cbn [pin_direction].
  repeat first [rewrite decide_True by done | rewrite decide_False by done].
  rewrite <- !app_assoc. reflexivity.
Qed.

(** Appending pins whose indices go on counting keeps the indices
    contiguous. *)
Lemma indices_contiguous_app (pins news : list OScriptNodePin) :
  indices_contiguous pins →
  (∀ d, map pin_index (filter (λ p, pin_direction p = d) news)
        = seq (count_direction d pins) (count_direction d news)) →
  indices_contiguous (pins ++ news).
Proof.
  intros Hold Hnew d. unfold count_direction.
  rewrite filter_app, fmap_app, length_app, seq_app.
  by rewrite Hold, Hnew.
Qed.

(** X15.  [allocate_default_pins] only appends: on a type-cast node it
    adds five pins and on a select node four, behind the pins the node
    already has, which it leaves as they are; and if the pin indices were
    contiguous within each direction before, they still are afterwards. *)
Theorem allocate_default_pins_appends_in_order
    (to_type : Z → Z) (cast : OScriptNodeTypeCast) (select : OScriptNodeSelect) :
  (_pins (cast_super cast)
     `prefix_of` _pins (cast_super (OScriptNodeTypeCast_allocate_default_pins cast))
   ∧ length (_pins (cast_super (OScriptNodeTypeCast_allocate_default_pins cast)))
     = (length (_pins (cast_super cast)) + 5)%nat
   ∧ (indices_contiguous (_pins (cast_super cast)) →
      indices_contiguous
        (_pins (cast_super (OScriptNodeTypeCast_allocate_default_pins cast)))))
  ∧ (_pins (select_super select)
       `prefix_of`
       _pins (select_super (OScriptNodeSelect_allocate_default_pins to_type select))
     ∧ length (_pins (select_super
                 (OScriptNodeSelect_allocate_default_pins to_type select)))
       = (length (_pins (select_super select)) + 4)%nat
     ∧ (indices_contiguous (_pins (select_super select)) →
        indices_contiguous
          (_pins (select_super
             (OScriptNodeSelect_allocate_default_pins to_type select))))).
Proof.
  destruct cast as [cn ct], select as [sn sty].
  rewrite cast_allocate_default_pins_appends,
    (select_allocate_default_pins_appends to_type).
  cbn [cast_super select_super].
  split; (split; [by apply prefix_app_r|]); (split; [by rewrite length_app|]);
    intros Hold; apply indices_contiguous_app; try done; intros d;
    unfold count_direction; destruct d; reflexivity.
Qed.

Lemma allocate_default_pins_appends_in_order_witness :
  indices_contiguous
    (_pins (select_super
       (OScriptNodeSelect_allocate_default_pins (λ t, t) example_select))).
Proof.
  destruct (allocate_default_pins_appends_in_order (λ t, t)
              (example_cast_node "") example_select)
    as (_ & _ & _ & H).
  apply H. intros d. destruct d; reflexivity.
Defined.
